(** * A STOMP client over a TCP socket: the producer and the consumer

    The repository holds two small C++ programs, [producer/main.cpp] and the
    consumer's [main.cpp].  Each declares its own copy of the class
    [SimpleStompClient] and a [main] that connects to the broker with
    retries.  The producer then publishes with [sendMessage]; the consumer
    subscribes and polls [receiveMessage].

    The embedding is shallow: a [std::string] is a [string], an [int] is a
    [Z], the client object is a record, and every system call, sleep and
    log line is an [event] appended to a trace.  What the operating system
    and the broker answer is given by an [Env], an oracle that sees the
    trace so far. *)

From Stdlib Require Import String Ascii ZArith List Lia Bool DecimalString.
From Stdlib Require Import DecimalPos DecimalZ.
From Equations Require Import Equations.
Import ListNotations.

Local Open Scope list_scope.
Local Open Scope string_scope.

(** ** Strings *)

(** The terminator byte of a frame and of a C string. *)
Definition NUL : ascii := "000"%char.

(** The line break ["\n"]. *)
Definition LF : string := String "010"%char "".

(** [std::string(const char* p)], and every other conversion of a
    [const char*] to a [std::string]: the bytes before the first NUL. *)
Fixpoint c_str (p : string) : string :=
  match p with
  | "" => ""
  | String c rest => if Ascii.eqb c NUL then "" else String c (c_str rest)
  end.

(** [s.find(pattern, pos)]; [None] stands for [std::string::npos]. *)
Definition find (s pattern : string) (pos : nat) : option nat :=
  index pos pattern s.

(** [s.find(ch, pos)]. *)
Definition find_char (s : string) (ch : ascii) (pos : nat) : option nat :=
  index pos (String ch "") s.

(** [s.substr(pos, count)], and [s.substr(pos)] when [count] is [None].
    Both callers pass a [pos] that is at most [s.size()], so the
    [std::out_of_range] case does not arise. *)
Definition substr (s : string) (pos : nat) (count : option nat) : string :=
  match count with
  | Some n => substring pos n s
  | None => substring pos (String.length s - pos) s
  end.

(** [s.empty()]. *)
Definition empty (s : string) : bool :=
  match s with "" => true | _ => false end.

Definition isSome {A : Type} (o : option A) : bool :=
  match o with Some _ => true | None => false end.

(** [std::to_string] of a [size_t], and [operator<<] of an [int]. *)
Definition to_string (n : nat) : string :=
  NilZero.string_of_uint (Nat.to_uint n).

Definition show_int (z : Z) : string :=
  NilZero.string_of_int (Z.to_int z).

(** ** The world outside the program *)

(** What one [recv] finds on the socket. *)
Inductive arrival : Type :=
| Bytes (data : string)
| Shutdown
| Failure.

(** Everything the program does that is visible outside, with the answer
    it got. *)
Inductive event : Type :=
| Socket (ret : Z)
| GetHostByName (name : string) (found : bool)
| Connect (fd : Z) (name : string) (port : Z) (ret : Z)
| Send (fd : Z) (data : string) (ret : Z)
| Recv (fd : Z) (cap : nat) (bytes_read : Z) (data : string)
| Close (fd : Z)
| SleepFor (ms : Z)
| Cout (line : string)
| Cerr (line : string).

(** The operating system and the broker.  Each answer may depend on all
    that happened before. *)
Record Env : Type := {
  os_socket : list event -> Z;
  os_gethostbyname : list event -> string -> bool;
  os_connect : list event -> Z -> string -> Z -> Z;
  os_send : list event -> Z -> string -> Z;
  os_recv : list event -> Z -> arrival
}.

(** ** The client object and the program state *)

(** The data members of [SimpleStompClient]. *)
Record Client : Type := {
  sockfd : Z;
  host : string;
  port : Z;
  connected : bool
}.

(** [SimpleStompClient(h, p)]. *)
Definition new_client (h : string) (p : Z) : Client :=
  {| sockfd := (-1)%Z; host := h; port := p; connected := false |}.

Record World : Type := {
  self : Client;
  trace : list event
}.

(** State passing over the world. *)
Definition M (A : Type) : Type := World -> A * World.

Definition ret {A : Type} (a : A) : M A := fun w => (a, w).

Definition bind {A B : Type} (m : M A) (k : A -> M B) : M B :=
  fun w => let (a, w') := m w in k a w'.

Notation "x <- m ;; k" := (bind m (fun x => k))
  (at level 61, m at next level, right associativity).
Notation "m ;; k" := (bind m (fun _ => k))
  (at level 61, right associativity).

Definition emit (e : event) : M unit :=
  fun w => (tt, {| self := self w; trace := trace w ++ [e] |}).

Definition this : M Client := fun w => (self w, w).

Definition set_sockfd (fd : Z) : M unit :=
  fun w => (tt, {| self := {| sockfd := fd; host := host (self w);
                              port := port (self w);
                              connected := connected (self w) |};
                   trace := trace w |}).

Definition set_connected (b : bool) : M unit :=
  fun w => (tt, {| self := {| sockfd := sockfd (self w); host := host (self w);
                              port := port (self w); connected := b |};
                   trace := trace w |}).

Definition cout (line : string) : M unit := emit (Cout line).
Definition cerr (line : string) : M unit := emit (Cerr line).
Definition close (fd : Z) : M unit := emit (Close fd).
Definition sleep_for (ms : Z) : M unit := emit (SleepFor ms).

(** ** System calls

    Each call asks the environment, records the call with its answer, and
    returns the answer. *)

Section SimpleStompClient.

Variable env : Env.

Definition socket : M Z :=
  fun w => let r := os_socket env (trace w) in
           (r, snd (emit (Socket r) w)).

Definition gethostbyname (name : string) : M bool :=
  fun w => let r := os_gethostbyname env (trace w) name in
           (r, snd (emit (GetHostByName name r) w)).

Definition sys_connect (fd : Z) (name : string) (p : Z) : M Z :=
  fun w => let r := os_connect env (trace w) fd name p in
           (r, snd (emit (Connect fd name p r) w)).

Definition send (fd : Z) (data : string) : M Z :=
  fun w => let r := os_send env (trace w) fd data in
           (r, snd (emit (Send fd data r) w)).

(** [recv(fd, buffer, cap, 0)]: at most [cap] bytes are stored; the result
    is the byte count (0 once the peer has shut down, negative on error)
    and the bytes now in [buffer]. *)
Definition recv_answer (a : arrival) (cap : nat) : Z * string :=
  match a with
  | Bytes data =>
      let stored := substring 0 cap data in
      (Z.of_nat (String.length stored), stored)
  | Shutdown => (0%Z, "")
  | Failure => ((-1)%Z, "")
  end.

Definition recv (fd : Z) (cap : nat) : M (Z * string) :=
  fun w => let r := recv_answer (os_recv env (trace w) fd) cap in
           (r, snd (emit (Recv fd cap (fst r) (snd r)) w)).

(** ** The frames the client writes

    The two programs are told apart by [program]: the class is the same in
    both files up to the log tag and the text of the CONNECT and
    DISCONNECT frames. *)

Inductive program : Type := PRODUCER | CONSUMER.

Definition tag (a : program) : string :=
  match a with
  | PRODUCER => "[PRODUCER]"
  | CONSUMER => "[CONSUMER]"
  end.

(** The producer ends the frame with [connectFrame += "\n\0"], a
    [const char*]; the consumer with ["\n"] and then [char(0)]. *)
Definition connectFrame (a : program) (h : string) : string :=
  match a with
  | PRODUCER =>
      "CONNECT" ++ LF
      ++ "accept-version:1.0,1.1,1.2" ++ LF
      ++ ("host:" ++ h ++ LF)
      ++ c_str (LF ++ String NUL "")
  | CONSUMER =>
      "CONNECT" ++ LF
      ++ "accept-version:1.0,1.1,1.2" ++ LF
      ++ ("host:" ++ h ++ LF)
      ++ "heart-beat:0,0" ++ LF
      ++ LF
      ++ String NUL ""
  end.

(** Producer, [sendMessage]: the last operand of
    ["\n" + message + "\0"] is a [const char*]. *)
Definition sendFrame (destination message : string) : string :=
  "SEND" ++ LF
  ++ ("destination:" ++ destination ++ LF)
  ++ "content-type:text/plain" ++ LF
  ++ ("content-length:" ++ to_string (String.length message) ++ LF)
  ++ (LF ++ message ++ c_str (String NUL "")).

(** Consumer, [subscribe]. *)
Definition subscribeFrame (destination subscription_id : string) : string :=
  "SUBSCRIBE" ++ LF
  ++ ("destination:" ++ destination ++ LF)
  ++ ("id:" ++ subscription_id ++ LF)
  ++ "ack:auto" ++ LF
  ++ LF
  ++ String NUL "".

(** The producer builds the frame from the literal ["DISCONNECT\n\n\0"];
    the consumer from ["DISCONNECT\n\n"] and then [char(0)]. *)
Definition disconnectFrame (a : program) : string :=
  match a with
  | PRODUCER => c_str ("DISCONNECT" ++ LF ++ LF ++ String NUL "")
  | CONSUMER => "DISCONNECT" ++ LF ++ LF ++ String NUL ""
  end.

(** ** SimpleStompClient *)

Variable a : program.

(** [connect()], the same in both programs.  [htons(port)] keeps the low
    16 bits of [port], and that is the port the connection goes to.  The
    response buffer has 1024 bytes and [recv] may fill all of them, in
    which case the store [buffer[bytes_read] = '\0'] lands one past the
    array; the theorems about [connect] are stated for shorter reads. *)
Definition connect : M bool :=
  fd <- socket ;;
  set_sockfd fd ;;
  if (fd <? 0)%Z then
    cerr "Error creating socket" ;;
    ret false
  else
    c <- this ;;
    host_entry <- gethostbyname (c_str (host c)) ;;
    if negb host_entry then
      cerr ("Error resolving hostname: " ++ host c) ;;
      close fd ;;
      ret false
    else
      r <- sys_connect fd (host c) (port c mod 65536)%Z ;;
      if (r <? 0)%Z then
        cerr ("Error connecting to ActiveMQ at " ++ host c ++ ":"
              ++ show_int (port c)) ;;
        close fd ;;
        ret false
      else
        sent <- send fd (connectFrame a (host c)) ;;
        if (sent <? 0)%Z then
          cerr "Error sending CONNECT frame" ;;
          close fd ;;
          ret false
        else
          rd <- recv fd 1024 ;;
          let bytes_read := fst rd in
          let response := c_str (snd rd) in
          if (0 <? bytes_read)%Z && isSome (find response "CONNECTED" 0) then
            set_connected true ;;
            cout (tag a ++ " Successfully connected to ActiveMQ via STOMP") ;;
            ret true
          else
            cerr "Failed to receive CONNECTED frame" ;;
            close fd ;;
            ret false.

(** Producer, [sendMessage(destination, message)]. *)
Definition sendMessage (destination message : string) : M bool :=
  c <- this ;;
  if negb (connected c) then
    cerr "Not connected to broker" ;;
    ret false
  else
    sent <- send (sockfd c) (sendFrame destination message) ;;
    if (sent <? 0)%Z then
      cerr "Error sending message" ;;
      ret false
    else
      ret true.

(** Consumer, [subscribe(destination, subscription_id)]. *)
Definition subscribe (destination subscription_id : string) : M bool :=
  c <- this ;;
  if negb (connected c) then
    cerr "Not connected to broker" ;;
    ret false
  else
    sent <- send (sockfd c) (subscribeFrame destination subscription_id) ;;
    if (sent <? 0)%Z then
      cerr "Error sending SUBSCRIBE frame" ;;
      ret false
    else
      cout ("[CONSUMER] Successfully subscribed to " ++ destination) ;;
      ret true.

(** Consumer, [receiveMessage()], from the text of one read: the part
    after [buffer[bytes_read] = '\0'; std::string response(buffer)]. *)
Definition parse_response (response : string) : string :=
  if isSome (find response "MESSAGE" 0) then
    match find response (LF ++ LF) 0 with
    | Some found =>
        let body_start := found + 2 in
        match find_char response NUL body_start with
        | Some body_end =>
            substr response body_start (Some (body_end - body_start))
        | None => substr response body_start None
        end
    | None => ""
    end
  else "".

(** Consumer, [receiveMessage()].  The buffer has 4096 bytes and [recv] is
    given one less. *)
Definition receiveMessage : M string :=
  c <- this ;;
  if negb (connected c) then
    ret ""
  else
    rd <- recv (sockfd c) 4095 ;;
    let bytes_read := fst rd in
    if (0 <? bytes_read)%Z then
      ret (parse_response (c_str (snd rd)))
    else
      ret "".

(** [disconnect()]. *)
Definition disconnect : M unit :=
  c <- this ;;
  if connected c && (0 <=? sockfd c)%Z then
    send (sockfd c) (disconnectFrame a) ;;
    close (sockfd c) ;;
    set_connected false ;;
    cout (tag a ++ " Disconnected from ActiveMQ")
  else
    ret tt.

End SimpleStompClient.

(** ** The two [main] functions *)

Section Main.

Variable env : Env.
Variable a : program.

(** The retry loop of both [main]s,
    [for (int retry = 1; retry <= max_retries; ++retry)], from the current
    value of [retry].  The result is [connection_successful]. *)
Equations? retry_loop (max_retries retry : Z) : M bool
  by wf (Z.to_nat (max_retries + 1 - retry)) lt :=
retry_loop max_retries retry with Z_le_gt_dec retry max_retries := {
  | left _ =>
      cout (tag a ++ " Connection attempt " ++ show_int retry ++ "/"
            ++ show_int max_retries) ;;
      ok <- connect env a ;;
      if ok then
        ret true
      else
        (if (retry <? max_retries)%Z then
           cout (tag a ++ " Retrying in 3 seconds...") ;;
           sleep_for 3000
         else
           ret tt) ;;
        retry_loop max_retries (retry + 1)
  | right _ => ret false }.
Proof. lia. Qed.

(** [main] up to the test of [connection_successful]: [Some 1] is
    [return 1], [None] means that [main] goes on. *)
Definition connect_with_retries (max_retries : Z) : M (option Z) :=
  connection_successful <- retry_loop max_retries 1 ;;
  if negb connection_successful then
    cerr (tag a ++ " Failed to connect to ActiveMQ after "
          ++ show_int max_retries ++ " attempts") ;;
    ret (Some 1%Z)
  else
    ret None.

(** Both programs set [int max_retries = 10]. *)
Definition max_retries : Z := 10.

(** The consumer's receive loop,
    [while (messages_received < expected_messages)].  The loop has no
    bound of its own: [fuel] is the number of iterations followed.  The
    result is the counter and whether the loop was left. *)
Fixpoint receive_loop (fuel : nat) (expected_messages messages_received : Z)
  : M (Z * bool) :=
  match fuel with
  | O => ret (messages_received, false)
  | S fuel' =>
      if (messages_received <? expected_messages)%Z then
        message <- receiveMessage env ;;
        if negb (empty message) then
          let messages_received := (messages_received + 1)%Z in
          cout ("[CONSUMER] Received message " ++ show_int messages_received
                ++ "/" ++ show_int expected_messages ++ ": " ++ message) ;;
          if (messages_received >=? expected_messages)%Z then
            cout ("[CONSUMER] All " ++ show_int expected_messages
                  ++ " messages received successfully!") ;;
            ret (messages_received, true)
          else
            receive_loop fuel' expected_messages messages_received
        else
          sleep_for 100 ;;
          receive_loop fuel' expected_messages messages_received
      else
        ret (messages_received, true)
  end.

(** The consumer sets [const int expected_messages = 10]. *)
Definition expected_messages : Z := 10.

End Main.

(** ** Frames on the wire

    The layout of a frame in the byte stream, as the specification gives it
    (section 6): the command and a line break, one [name:value] line per
    header, an empty line, the body and one NUL.  The frames the consumer
    writes have this layout ([subscribeFrame_wire] and its neighbours
    below). *)

Inductive Command : Type :=
| CONNECT | CONNECTED | SEND | SUBSCRIBE | MESSAGE | DISCONNECT | ERROR.

Definition token (c : Command) : string :=
  match c with
  | CONNECT => "CONNECT"
  | CONNECTED => "CONNECTED"
  | SEND => "SEND"
  | SUBSCRIBE => "SUBSCRIBE"
  | MESSAGE => "MESSAGE"
  | DISCONNECT => "DISCONNECT"
  | ERROR => "ERROR"
  end.

Record Frame : Type := {
  command : Command;
  headers : list (string * string);
  body : string
}.

Definition header_line (h : string * string) : string :=
  fst h ++ ":" ++ snd h.

Fixpoint unlines (ls : list string) : string :=
  match ls with
  | [] => ""
  | l :: rest => l ++ LF ++ unlines rest
  end.

(** The command line and the header lines, each with its line break. *)
Definition frame_head (f : Frame) : string :=
  unlines (token (command f) :: map header_line (headers f)).

Definition wire (f : Frame) : string :=
  frame_head f ++ LF ++ body f ++ String NUL "".

Fixpoint has_char (ch : ascii) (s : string) : bool :=
  match s with
  | "" => false
  | String c rest => Ascii.eqb c ch || has_char ch rest
  end.

(** Text with neither a line break nor a NUL. *)
Definition plain (s : string) : bool :=
  negb (has_char "010"%char s) && negb (has_char NUL s).

(** No header name or value holds a line break or a NUL. *)
Definition plain_headers (f : Frame) : bool :=
  forallb (fun h => plain (fst h) && plain (snd h)) (headers f).

(** A line of a frame head: not empty, no line break. *)
Definition line_ok (l : string) : Prop :=
  l <> "" /\ has_char "010"%char l = false.

(** The SEND frame of the producer as a frame: what [sendFrame] sets out
    to write. *)
Definition send_as_frame (destination message : string) : Frame :=
  {| command := SEND;
     headers := [("destination", destination);
                 ("content-type", "text/plain");
                 ("content-length", to_string (String.length message))];
     body := message |}.

(** ** Reading a run *)

(** What the next [recv] on the client's socket finds. *)
Definition read_of (env : Env) (w : World) : arrival :=
  os_recv env (trace w) (sockfd (self w)).

(** The world after the events [evs], the client object as it was. *)
Definition logged (w : World) (evs : list event) : World :=
  {| self := self w; trace := trace w ++ evs |}.

(** The events between the world [w] and a later world [w']. *)
Definition news (w w' : World) : list event :=
  skipn (List.length (trace w)) (trace w').

(** The timing of a run: every call of [connect()] opens one socket, shown
    as [Attempt]; every sleep is a [Wait]. *)
Inductive tick : Type :=
| Attempt
| Wait (ms : Z).

Fixpoint schedule (evs : list event) : list tick :=
  match evs with
  | [] => []
  | Socket _ :: rest => Attempt :: schedule rest
  | SleepFor ms :: rest => Wait ms :: schedule rest
  | _ :: rest => schedule rest
  end.

(** [n] attempts with three seconds between one and the next. *)
Fixpoint spaced (n : nat) : list tick :=
  match n with
  | O => []
  | S n' =>
      Attempt :: match n' with
                 | O => []
                 | S _ => Wait 3000 :: spaced n'
                 end
  end.

(** ** Scenarios *)

Definition is_recv (e : event) : bool :=
  match e with Recv _ _ _ _ => true | _ => false end.

(** A broker that accepts the connection and every write, and answers the
    reads in turn from [script]; after the script the peer has shut
    down. *)
Definition broker (script : list arrival) : Env :=
  {| os_socket := fun _ => 3%Z;
     os_gethostbyname := fun _ _ => true;
     os_connect := fun _ _ _ _ => 0%Z;
     os_send := fun _ _ data => Z.of_nat (String.length data);
     os_recv := fun h _ =>
       nth (List.length (filter is_recv h)) script Shutdown |}.

(** A host that resolves but refuses every connection. *)
Definition refusing : Env :=
  {| os_socket := fun _ => 3%Z;
     os_gethostbyname := fun _ _ => true;
     os_connect := fun _ _ _ _ => (-1)%Z;
     os_send := fun _ _ _ => (-1)%Z;
     os_recv := fun _ _ => Failure |}.

(** The client as [main] creates it, and a client after a successful
    [connect()]. *)
Definition fresh : World :=
  {| self := new_client "activemq" 61613; trace := [] |}.

Definition online : World :=
  {| self := {| sockfd := 3; host := "activemq"; port := 61613;
                connected := true |};
     trace := [] |}.

Definition message_to (destination payload : string) : Frame :=
  {| command := MESSAGE;
     headers := [("destination", destination)];
     body := payload |}.

(** A MESSAGE frame whose three-byte body has a NUL in the middle. *)
Definition binary_message : Frame :=
  {| command := MESSAGE;
     headers := [("destination", "/queue/x"); ("content-length", "3")];
     body := "a" ++ String NUL "b" |}.

Definition error_frame (text : string) : Frame :=
  {| command := ERROR;
     headers := [("message", "rejected")];
     body := text |}.

Definition connected_frame : Frame :=
  {| command := CONNECTED;
     headers := [("version", "1.2")];
     body := "" |}.

(** A broker whose every read delivers one MESSAGE frame with an empty
    body. *)
Definition empty_messages : Env :=
  {| os_socket := fun _ => 3%Z;
     os_gethostbyname := fun _ _ => true;
     os_connect := fun _ _ _ _ => 0%Z;
     os_send := fun _ _ data => Z.of_nat (String.length data);
     os_recv := fun _ _ => Bytes (wire (message_to "/queue/x" "")) |}.

(** The reads from which [receiveMessage] takes no payload: the peer has
    shut down, the read failed, the text before the first NUL lacks the
    word MESSAGE or lacks an empty line, or the read is a MESSAGE frame
    with plain headers and an empty body. *)
Definition nothing_to_deliver (x : arrival) : Prop :=
  x = Shutdown
  \/ x = Failure
  \/ (exists data, x = Bytes data /\ String.length data <= 4095
                   /\ (find (c_str data) "MESSAGE" 0 = None
                       \/ find (c_str data) (LF ++ LF) 0 = None))
  \/ (exists f, x = Bytes (wire f) /\ String.length (wire f) <= 4095
                /\ command f = MESSAGE /\ plain_headers f = true
                /\ body f = "").

(** The reads that bring a payload: a MESSAGE frame with plain headers and
    a body that is not empty and has no NUL, of at most 4095 bytes. *)
Definition deliverable (x : arrival) : Prop :=
  exists f, x = Bytes (wire f) /\ String.length (wire f) <= 4095
            /\ command f = MESSAGE /\ plain_headers f = true
            /\ body f <> "" /\ has_char NUL (body f) = false.

(** A broker whose every read delivers one MESSAGE frame with the payload
    [hi]. *)
Definition chatty : Env :=
  {| os_socket := fun _ => 3%Z;
     os_gethostbyname := fun _ _ => true;
     os_connect := fun _ _ _ _ => 0%Z;
     os_send := fun _ _ data => Z.of_nat (String.length data);
     os_recv := fun _ _ => Bytes (wire (message_to "/queue/ProjectQueue" "hi")) |}.

(** A peer that has shut down: every read returns 0 and every write
    fails. *)
Definition gone : Env :=
  {| os_socket := fun _ => 3%Z;
     os_gethostbyname := fun _ _ => true;
     os_connect := fun _ _ _ _ => 0%Z;
     os_send := fun _ _ _ => (-1)%Z;
     os_recv := fun _ _ => Shutdown |}.

(** A broker that answers the CONNECT frame with CONNECTED and then
    delivers ten MESSAGE frames, one per read. *)
Definition serving : Env :=
  broker (Bytes (wire connected_frame)
          :: repeat (Bytes (wire (message_to "/queue/ProjectQueue" "hi"))) 10).

(** Two calls of [receiveMessage()] in a row. *)
Definition receive_twice (env : Env) : M (list string) :=
  first <- receiveMessage env ;;
  second <- receiveMessage env ;;
  ret [first; second].

(** ** The rest of the two programs

    [main] of the producer and of the consumer in full.  The client is a
    local object of [main], so every [return] runs its destructor. *)

Section Programs.

Variable env : Env.

(** The local time as [std::put_time] prints it with the format
    ["%Y%m%d_%H%M%S"], at the moment given by the trace so far. *)
Variable now : list event -> string.

(** [SimpleStompClient client(h, p)]. *)
Definition construct (h : string) (p : Z) : M unit :=
  fun w => (tt, {| self := new_client h p; trace := trace w |}).

(** [~SimpleStompClient()]. *)
Definition destructor (a : program) : M unit := disconnect env a.

(** Producer, [generateMessageId(index)]. *)
Definition generateMessageId (index : Z) : M string :=
  fun w => ("MSG_" ++ now (trace w) ++ "_INDEX_" ++ show_int index, w).

Definition broker_host : string := "activemq".
Definition broker_port : Z := 61613.
Definition queue_destination : string := "/queue/ProjectQueue".

(** Producer, the loop [for (int i = 1; i <= message_count; ++i)] of
    [main], from the current value of [i]. *)
Equations? send_loop (message_count i : Z) : M unit
  by wf (Z.to_nat (message_count + 1 - i)) lt :=
send_loop message_count i with Z_le_gt_dec i message_count := {
  | left _ =>
      message_id <- generateMessageId i ;;
      let full_message := "Hello from C++ Producer - " ++ message_id in
      cout ("[PRODUCER] Sending message " ++ show_int i ++ "/"
            ++ show_int message_count ++ ": " ++ full_message) ;;
      ok <- sendMessage env queue_destination full_message ;;
      (if ok then
         cout ("[PRODUCER] Message " ++ show_int i ++ " sent successfully")
       else
         cerr ("[PRODUCER] Failed to send message " ++ show_int i)) ;;
      (if (i <? message_count)%Z then sleep_for 1000 else ret tt) ;;
      send_loop message_count (i + 1)
  | right _ => ret tt }.
Proof. lia. Qed.

(** The producer sets [const int message_count = 10]. *)
Definition message_count : Z := 10.

(** Producer, [main()]; the result is the exit code. *)
Definition producer_main : M Z :=
  cout "[PRODUCER] Starting C++ Producer Application" ;;
  construct broker_host broker_port ;;
  failed <- connect_with_retries env PRODUCER max_retries ;;
  match failed with
  | Some code =>
      destructor PRODUCER ;;
      ret code
  | None =>
      cout ("[PRODUCER] Sending " ++ show_int message_count
            ++ " messages to " ++ queue_destination) ;;
      send_loop message_count 1 ;;
      cout "[PRODUCER] All messages sent. Disconnecting..." ;;
      disconnect env PRODUCER ;;
      cout "[PRODUCER] Producer application completed successfully" ;;
      destructor PRODUCER ;;
      ret 0%Z
  end.

(** Consumer, [main()].  The receive loop is followed for [fuel]
    iterations; [None] means that it is still running then. *)
Definition consumer_main (fuel : nat) : M (option Z) :=
  cout "[CONSUMER] Starting C++ Consumer Application" ;;
  construct broker_host broker_port ;;
  failed <- connect_with_retries env CONSUMER max_retries ;;
  match failed with
  | Some code =>
      destructor CONSUMER ;;
      ret (Some code)
  | None =>
      subscribed <- subscribe env queue_destination "sub-1" ;;
      if negb subscribed then
        cerr ("[CONSUMER] Failed to subscribe to " ++ queue_destination) ;;
        destructor CONSUMER ;;
        ret (Some 1%Z)
      else
        cout ("[CONSUMER] Waiting for messages from " ++ queue_destination) ;;
        cout ("[CONSUMER] Expected to receive " ++ show_int expected_messages
              ++ " messages") ;;
        looped <- receive_loop env fuel expected_messages 0 ;;
        if snd looped then
          cout ("[CONSUMER] Total messages received: "
                ++ show_int (fst looped)) ;;
          cout "[CONSUMER] Shutting down gracefully..." ;;
          disconnect env CONSUMER ;;
          cout "[CONSUMER] Consumer application completed successfully" ;;
          destructor CONSUMER ;;
          ret (Some 0%Z)
        else
          ret None
  end.

End Programs.

(** ** Reading the sockets and the writes of a run *)

(** The descriptors that [socket()] handed out. *)
Fixpoint opened (evs : list event) : list Z :=
  match evs with
  | [] => []
  | Socket r :: rest =>
      if (0 <=? r)%Z then r :: opened rest else opened rest
  | _ :: rest => opened rest
  end.

(** The descriptors given to [close()]. *)
Fixpoint closed (evs : list event) : list Z :=
  match evs with
  | [] => []
  | Close fd :: rest => fd :: closed rest
  | _ :: rest => closed rest
  end.

(** The byte strings given to [send()]. *)
Fixpoint written (evs : list event) : list string :=
  match evs with
  | [] => []
  | Send _ data _ :: rest => data :: written rest
  | _ :: rest => written rest
  end.

(** No read into the 1024-byte response buffer of [connect()] has filled
    it.  In such a run the store [buffer[bytes_read] = '\0'] of every
    [connect()] stayed inside the array; the reads of [receiveMessage],
    which leave a byte free, are not concerned. *)
Definition handshakes_fit (evs : list event) : bool :=
  forallb (fun e => match e with
                    | Recv _ cap bytes_read _ =>
                        negb (Nat.eqb cap 1024) || (bytes_read <? 1024)%Z
                    | _ => true
                    end) evs.

(** The number of [recv()] calls. *)
Definition reads (evs : list event) : nat :=
  List.length (filter is_recv evs).

(** The values [i], [i + 1], ... that a counting loop takes in [k]
    iterations. *)
Fixpoint indices (i : Z) (k : nat) : list Z :=
  match k with
  | O => []
  | S k' => i :: indices (i + 1) k'
  end.

(** A run of [m] from [w]: its result, the world after it and the events
    it added. *)
Definition runs {A : Type} (m : M A) (w : World) (r : A) (w' : World)
           (evs : list event) : Prop :=
  m w = (r, w') /\ trace w' = (trace w ++ evs)%list.

(** A broker that accepts everything and answers the CONNECT frame with a
    CONNECTED frame, and a clock that stands still. *)
Definition welcoming : Env := broker [Bytes (wire connected_frame)].

Definition noon : list event -> string := fun _ => "20251007_120000".

(** A broker that answers the CONNECT frame and then refuses every
    write. *)
Definition deaf : Env :=
  {| os_socket := fun _ => 3%Z;
     os_gethostbyname := fun _ _ => true;
     os_connect := fun _ _ _ _ => 0%Z;
     os_send := fun h _ data =>
       if Nat.eqb (List.length (filter is_recv h)) 0
       then Z.of_nat (String.length data) else (-1)%Z;
     os_recv := fun _ _ => Bytes (wire connected_frame) |}.

(** * Properties *)

(** ** Strings *)

Lemma append_assoc (x y z : string) : (x ++ y) ++ z = x ++ y ++ z.
Proof. induction x as [|c x IH]; simpl; [reflexivity | now rewrite IH]. Qed.

Lemma append_empty_r (x : string) : x ++ "" = x.
Proof. induction x as [|c x IH]; simpl; [reflexivity | now rewrite IH]. Qed.

Lemma length_append (x y : string) :
  String.length (x ++ y) = String.length x + String.length y.
Proof. induction x as [|c x IH]; simpl; [reflexivity | now rewrite IH]. Qed.

Lemma has_char_append (ch : ascii) (x y : string) :
  has_char ch (x ++ y) = has_char ch x || has_char ch y.
Proof.
  induction x as [|c x IH]; simpl; [reflexivity |].
  now rewrite IH, orb_assoc.
Qed.

Lemma c_str_append (x y : string) :
  has_char NUL x = false -> c_str (x ++ y) = x ++ c_str y.
Proof.
  induction x as [|c x IH]; simpl; intros H; [reflexivity |].
  apply orb_false_elim in H as [Hc Hx].
  rewrite Hc, IH by exact Hx. reflexivity.
Qed.

Lemma c_str_id (x : string) : has_char NUL x = false -> c_str x = x.
Proof.
  intros H. rewrite <- (append_empty_r x) at 1.
  rewrite c_str_append by exact H. apply append_empty_r.
Qed.

Lemma c_str_no_NUL (x : string) : has_char NUL (c_str x) = false.
Proof.
  induction x as [|c x IH]; simpl; [reflexivity |].
  destruct (Ascii.eqb c NUL) eqn:E; simpl; [reflexivity |].
  now rewrite E, IH.
Qed.

Lemma find_char_absent (ch : ascii) (s : string) (pos : nat) :
  has_char ch s = false -> find_char s ch pos = None.
Proof.
  unfold find_char. revert pos.
  induction s as [|c s IH]; intros pos H.
  - destruct pos; reflexivity.
  - simpl in H. apply orb_false_elim in H as [Hc Hs].
    destruct pos as [|pos].
    + cbn [index prefix]. destruct (ascii_dec ch c) as [->|_].
      * now rewrite Ascii.eqb_refl in Hc.
      * now rewrite (IH 0 Hs).
    + cbn [index]. now rewrite (IH pos Hs).
Qed.

Lemma substring_all (s : string) : substring 0 (String.length s) s = s.
Proof. induction s as [|c s IH]; simpl; [reflexivity | now rewrite IH]. Qed.

Lemma substring_fits (s : string) (n : nat) :
  String.length s <= n -> substring 0 n s = s.
Proof.
  revert n. induction s as [|c s IH]; intros [|n] H; simpl in *;
    try reflexivity; try lia.
  now rewrite IH by lia.
Qed.

Lemma substr_tail (x y : string) :
  substr (x ++ y) (String.length x) None = y.
Proof.
  unfold substr. rewrite length_append.
  replace (String.length x + String.length y - String.length x)
    with (String.length y) by lia.
  induction x as [|c x IH]; simpl; [apply substring_all | exact IH].
Qed.

(** *** The first empty line of a text *)

Lemma index_blank_cons (c : ascii) (s : string) :
  index 0 (LF ++ LF) (String c s) =
    if Ascii.eqb c "010" && prefix LF s then Some 0
    else option_map S (index 0 (LF ++ LF) s).
Proof.
  cbn [index prefix LF append].
  destruct (ascii_dec "010" c) as [<-|N].
  - rewrite Ascii.eqb_refl. cbn [andb].
    destruct (prefix (String "010" "") s); [reflexivity |].
    destruct (index 0 _ s); reflexivity.
  - apply not_eq_sym in N. apply Ascii.eqb_neq in N. rewrite N. cbn [andb].
    destruct (index 0 _ s); reflexivity.
Qed.

Lemma find_blank_step (l rest : string) :
  has_char "010"%char l = false ->
  find (l ++ LF ++ rest) (LF ++ LF) 0 =
    if prefix LF rest then Some (String.length l)
    else option_map (fun k => String.length l + 1 + k)
                    (find rest (LF ++ LF) 0).
Proof.
  unfold find. induction l as [|c l IH]; intros H.
  - change ("" ++ LF ++ rest) with (String "010" rest).
    rewrite index_blank_cons, Ascii.eqb_refl. cbn [andb String.length].
    destruct (prefix LF rest); [reflexivity |].
    destruct (index 0 (LF ++ LF) rest); reflexivity.
  - simpl in H. apply orb_false_elim in H as [Hc Hl].
    change (String c l ++ LF ++ rest) with (String c (l ++ LF ++ rest)).
    rewrite index_blank_cons, Hc, (IH Hl). cbn [andb String.length].
    destruct (prefix LF rest); [reflexivity |].
    destruct (index 0 (LF ++ LF) rest); reflexivity.
Qed.

Lemma prefix_LF_cons (c : ascii) (s : string) :
  prefix LF (String c s) = Ascii.eqb c "010".
Proof.
  cbn [prefix LF]. destruct (ascii_dec "010" c) as [<-|N].
  - destruct s; reflexivity.
  - symmetry. now apply Ascii.eqb_neq, not_eq_sym.
Qed.

Lemma prefix_LF_line (l rest : string) :
  line_ok l -> prefix LF (l ++ rest) = false.
Proof.
  intros [Hne Hlf]. destruct l as [|c l]; [now elim Hne |].
  simpl in Hlf. apply orb_false_elim in Hlf as [Hc _].
  change (String c l ++ rest) with (String c (l ++ rest)).
  now rewrite prefix_LF_cons.
Qed.

Lemma length_unlines_pos (l : string) (ls : list string) :
  1 <= String.length (unlines (l :: ls)).
Proof. cbn [unlines]. rewrite !length_append. cbn. lia. Qed.

Lemma find_blank_unlines (ls : list string) (tail : string) :
  ls <> [] -> Forall line_ok ls ->
  find (unlines ls ++ LF ++ tail) (LF ++ LF) 0 =
    Some (String.length (unlines ls) - 1).
Proof.
  induction ls as [|l ls IH]; intros Hne Hok; [now elim Hne |].
  inversion Hok as [|? ? Hl Hls]; subst.
  cbn [unlines]. rewrite !append_assoc.
  rewrite find_blank_step by apply Hl.
  destruct ls as [|l2 ls].
  - change (unlines [] ++ LF ++ tail) with (String "010" tail).
    rewrite prefix_LF_cons, Ascii.eqb_refl.
    f_equal. rewrite !length_append. cbn. lia.
  - assert (Hp : prefix LF (unlines (l2 :: ls) ++ LF ++ tail) = false).
    { cbn [unlines]. rewrite append_assoc. apply prefix_LF_line.
      now inversion Hls. }
    rewrite Hp, IH by (assumption || discriminate). cbn [option_map].
    f_equal. pose proof (length_unlines_pos l2 ls).
    rewrite (length_append l), (length_append LF). cbn [String.length LF]. lia.
Qed.

(** ** The head of a frame *)

Lemma token_line_ok (c : Command) : line_ok (token c).
Proof. destruct c; split; (discriminate || reflexivity). Qed.

Lemma token_no_NUL (c : Command) : has_char NUL (token c) = false.
Proof. destruct c; reflexivity. Qed.

Lemma plain_inv (s : string) :
  plain s = true ->
  has_char "010"%char s = false /\ has_char NUL s = false.
Proof.
  unfold plain. intros H. apply andb_prop in H as [H1 H2].
  split; now apply negb_true_iff.
Qed.

Lemma header_line_ok (h : string * string) :
  plain (fst h) && plain (snd h) = true ->
  line_ok (header_line h) /\ has_char NUL (header_line h) = false.
Proof.
  intros H. apply andb_prop in H as [Hn Hv].
  apply plain_inv in Hn as [Hn1 Hn2]. apply plain_inv in Hv as [Hv1 Hv2].
  unfold header_line, line_ok. repeat split.
  - destruct (fst h); discriminate.
  - rewrite !has_char_append, Hn1, Hv1. reflexivity.
  - rewrite !has_char_append, Hn2, Hv2. reflexivity.
Qed.

Lemma unlines_no_NUL (ls : list string) :
  Forall (fun l => has_char NUL l = false) ls ->
  has_char NUL (unlines ls) = false.
Proof.
  induction 1 as [|l ls Hl _ IH]; [reflexivity |].
  cbn [unlines]. rewrite !has_char_append, Hl, IH. reflexivity.
Qed.

Lemma frame_lines_ok (f : Frame) :
  plain_headers f = true ->
  Forall line_ok (token (command f) :: map header_line (headers f)) /\
  Forall (fun l => has_char NUL l = false)
         (token (command f) :: map header_line (headers f)).
Proof.
  unfold plain_headers. intros H.
  rewrite forallb_forall in H.
  split; constructor;
    try apply token_line_ok; try apply token_no_NUL;
    apply Forall_forall; intros l Hin;
    apply in_map_iff in Hin as [h [<- Hh]];
    now apply header_line_ok, H.
Qed.

Lemma frame_head_no_NUL (f : Frame) :
  plain_headers f = true -> has_char NUL (frame_head f) = false.
Proof. intros H. now apply unlines_no_NUL, frame_lines_ok. Qed.

(** ** What [receiveMessage] makes of the text of a read *)

(** The text before the first NUL of a read that starts with the head of
    a MESSAGE frame and its empty line. *)
Lemma c_str_frame (f : Frame) (tail : string) :
  plain_headers f = true ->
  c_str (frame_head f ++ LF ++ tail) = frame_head f ++ LF ++ c_str tail.
Proof.
  intros H. rewrite c_str_append by now apply frame_head_no_NUL.
  reflexivity.
Qed.

Lemma parse_response_frame (f : Frame) (tail : string) :
  command f = MESSAGE -> plain_headers f = true ->
  has_char NUL tail = false ->
  parse_response (frame_head f ++ LF ++ tail) = tail.
Proof.
  intros Hc Hp Ht. unfold parse_response.
  assert (Hm : isSome (find (frame_head f ++ LF ++ tail) "MESSAGE" 0) = true).
  { unfold frame_head. rewrite Hc. reflexivity. }
  rewrite Hm. unfold frame_head.
  rewrite find_blank_unlines by (discriminate || now apply frame_lines_ok).
  fold (frame_head f).
  rewrite find_char_absent.
  2:{ rewrite !has_char_append, frame_head_no_NUL, Ht by exact Hp.
      reflexivity. }
  pose proof (length_unlines_pos (token (command f))
                                 (map header_line (headers f))) as Hlen.
  fold (frame_head f) in Hlen.
  replace (String.length (frame_head f) - 1 + 2)
    with (String.length (frame_head f ++ LF))
    by (rewrite length_append; cbn [String.length LF]; lia).
  rewrite <- append_assoc. apply substr_tail.
Qed.

(** ** The frames of the client against the wire layout *)

Lemma subscribeFrame_wire (destination subscription_id : string) :
  subscribeFrame destination subscription_id =
  wire {| command := SUBSCRIBE;
          headers := [("destination", destination); ("id", subscription_id);
                      ("ack", "auto")];
          body := "" |}.
Proof.
  unfold subscribeFrame, wire, frame_head, header_line.
  cbn [command headers body map unlines token fst snd].
  rewrite !append_assoc. reflexivity.
Qed.

Lemma consumer_connectFrame_wire (h : string) :
  connectFrame CONSUMER h =
  wire {| command := CONNECT;
          headers := [("accept-version", "1.0,1.1,1.2"); ("host", h);
                      ("heart-beat", "0,0")];
          body := "" |}.
Proof.
  unfold connectFrame, wire, frame_head, header_line.
  cbn [command headers body map unlines token fst snd].
  rewrite !append_assoc. reflexivity.
Qed.

Lemma consumer_disconnectFrame_wire :
  disconnectFrame CONSUMER =
  wire {| command := DISCONNECT; headers := []; body := "" |}.
Proof. reflexivity. Qed.

(** The producer's SEND frame is the wire frame short of its last byte. *)
Lemma sendFrame_wire (destination message : string) :
  sendFrame destination message ++ String NUL "" =
  wire (send_as_frame destination message).
Proof.
  unfold sendFrame, wire, frame_head, header_line, send_as_frame.
  cbn [command headers body map unlines token fst snd c_str].
  rewrite Ascii.eqb_refl, append_empty_r, !append_assoc. reflexivity.
Qed.

(** ** One call of [receiveMessage] *)

Lemma recv_answer_fits (data : string) (cap : nat) :
  String.length data <= cap ->
  recv_answer (Bytes data) cap = (Z.of_nat (String.length data), data).
Proof. intros H. unfold recv_answer. now rewrite substring_fits. Qed.

Lemma receiveMessage_offline (env : Env) (w : World) :
  connected (self w) = false -> receiveMessage env w = ("", w).
Proof.
  intros H. unfold receiveMessage, bind, this. rewrite H. reflexivity.
Qed.

Lemma receiveMessage_online (env : Env) (w : World) :
  connected (self w) = true ->
  receiveMessage env w =
    let rd := recv_answer (read_of env w) 4095 in
    (if (0 <? fst rd)%Z then parse_response (c_str (snd rd)) else "",
     logged w [Recv (sockfd (self w)) 4095 (fst rd) (snd rd)]).
Proof.
  intros H. unfold receiveMessage, bind, this. rewrite H.
  cbn [negb]. unfold recv, emit, read_of, logged. cbn [snd fst self trace].
  destruct (0 <? fst (recv_answer _ 4095))%Z; reflexivity.
Qed.

(** A read of at most 4095 bytes that is not empty. *)
Lemma receiveMessage_read (env : Env) (w : World) (data : string) :
  connected (self w) = true ->
  read_of env w = Bytes data ->
  data <> "" -> String.length data <= 4095 ->
  receiveMessage env w =
    (parse_response (c_str data),
     logged w [Recv (sockfd (self w)) 4095
                    (Z.of_nat (String.length data)) data]).
Proof.
  intros Hc Hr Hne Hlen. rewrite receiveMessage_online by exact Hc.
  rewrite Hr, recv_answer_fits by exact Hlen.
  cbn [fst snd].
  destruct data as [|c data]; [now elim Hne |].
  reflexivity.
Qed.

Lemma receiveMessage_silent (env : Env) (w : World) :
  connected (self w) = true ->
  read_of env w = Shutdown \/ read_of env w = Failure ->
  fst (receiveMessage env w) = "".
Proof.
  intros Hc Hr. rewrite receiveMessage_online by exact Hc.
  destruct Hr as [-> | ->]; reflexivity.
Qed.

Lemma frame_head_not_empty (f : Frame) : frame_head f <> "".
Proof. unfold frame_head. destruct (command f); discriminate. Qed.

(** A read that starts with the head of a MESSAGE frame and its empty
    line: the result is what follows, up to the first NUL. *)
Lemma receiveMessage_frame (env : Env) (w : World) (f : Frame)
      (tail : string) :
  connected (self w) = true ->
  command f = MESSAGE -> plain_headers f = true ->
  read_of env w = Bytes (frame_head f ++ LF ++ tail) ->
  String.length (frame_head f ++ LF ++ tail) <= 4095 ->
  receiveMessage env w =
    (c_str tail,
     logged w [Recv (sockfd (self w)) 4095
                 (Z.of_nat (String.length (frame_head f ++ LF ++ tail)))
                 (frame_head f ++ LF ++ tail)]).
Proof.
  intros Hc Hm Hp Hr Hlen.
  rewrite (receiveMessage_read env w _ Hc Hr) by
    (assumption || (pose proof (frame_head_not_empty f);
                    destruct (frame_head f); [contradiction | discriminate])).
  rewrite c_str_frame by exact Hp.
  rewrite parse_response_frame by (assumption || apply c_str_no_NUL).
  reflexivity.
Qed.

Lemma c_str_cut (x y : string) : c_str (x ++ String NUL y) = c_str x.
Proof.
  induction x as [|c x IH]; [reflexivity |].
  cbn [append c_str]. destruct (Ascii.eqb c NUL); [reflexivity |].
  now rewrite IH.
Qed.

Lemma c_str_fixed (x : string) : c_str x = x <-> has_char NUL x = false.
Proof.
  split; [intros H; rewrite <- H; apply c_str_no_NUL | apply c_str_id].
Qed.

Lemma wire_split (f : Frame) (rest : string) :
  wire f ++ rest = frame_head f ++ LF ++ (body f ++ String NUL rest).
Proof. unfold wire. rewrite !append_assoc. reflexivity. Qed.

(** A read that starts with a whole MESSAGE frame. *)
Lemma receiveMessage_wire (env : Env) (w : World) (f : Frame)
      (rest : string) :
  connected (self w) = true ->
  command f = MESSAGE -> plain_headers f = true ->
  read_of env w = Bytes (wire f ++ rest) ->
  String.length (wire f ++ rest) <= 4095 ->
  receiveMessage env w =
    (c_str (body f),
     logged w [Recv (sockfd (self w)) 4095
                 (Z.of_nat (String.length (wire f ++ rest)))
                 (wire f ++ rest)]).
Proof.
  intros Hc Hm Hp Hr Hlen. rewrite wire_split in *.
  rewrite (receiveMessage_frame env w f _ Hc Hm Hp Hr Hlen).
  now rewrite c_str_cut.
Qed.

(** ** Decoding and the chunks of the byte stream *)

(** C1, as amended.  Decoding is per read and nothing is kept from one
    read to the next.  A read of at most 4095 bytes that starts with a
    whole MESSAGE frame gives the body of that frame up to its first NUL,
    and the client object is as before: what follows the frame in the same
    read, a second frame for one, is dropped.  A read that ends inside the
    body of a MESSAGE frame gives the part of the body read so far as the
    payload.  The result of a call is fixed by what its own read finds. *)
Theorem receive_is_per_read (env : Env) (w : World) (f : Frame) :
  connected (self w) = true ->
  command f = MESSAGE -> plain_headers f = true ->
  (forall rest : string,
      read_of env w = Bytes (wire f ++ rest) ->
      String.length (wire f ++ rest) <= 4095 ->
      receiveMessage env w =
        (c_str (body f),
         logged w [Recv (sockfd (self w)) 4095
                     (Z.of_nat (String.length (wire f ++ rest)))
                     (wire f ++ rest)]))
  /\ (forall part : string,
      has_char NUL part = false ->
      read_of env w = Bytes (frame_head f ++ LF ++ part) ->
      String.length (frame_head f ++ LF ++ part) <= 4095 ->
      fst (receiveMessage env w) = part)
  /\ (forall (env' : Env) (w' : World),
      connected (self w') = true ->
      read_of env' w' = read_of env w ->
      fst (receiveMessage env' w') = fst (receiveMessage env w)).
Proof.
  intros Hc Hm Hp. repeat split.
  - intros rest Hr Hlen. now apply receiveMessage_wire.
  - intros part Hpart Hr Hlen.
    rewrite (receiveMessage_frame env w f part Hc Hm Hp Hr Hlen).
    now apply c_str_id.
  - intros env' w' Hc' Hr.
    rewrite !receiveMessage_online by assumption. now rewrite Hr.
Qed.

(** C1, witness: two frames in one read, the first is decoded. *)
Lemma receive_is_per_read_witness :
  receiveMessage
    (broker [Bytes (wire (message_to "/queue/x" "one")
                    ++ wire (message_to "/queue/x" "two"))]) online =
  ("one",
   logged online
     [Recv 3 4095 68 (wire (message_to "/queue/x" "one")
                      ++ wire (message_to "/queue/x" "two"))]).
Proof.
  apply (proj1 (receive_is_per_read
                  (broker [Bytes (wire (message_to "/queue/x" "one")
                                  ++ wire (message_to "/queue/x" "two"))])
                  online (message_to "/queue/x" "one")
                  eq_refl eq_refl eq_refl)
               (wire (message_to "/queue/x" "two"))).
  - reflexivity.
  - vm_compute. lia.
Defined.

(** C1, counterexample: two frames arrive in one read and the peer then
    shuts down; two calls return the first payload and the empty string,
    not the first payload and then the second. *)
Lemma coalesced_frames_lose_second :
  fst (receive_twice
         (broker [Bytes (wire (message_to "/queue/x" "one")
                         ++ wire (message_to "/queue/x" "two"))]) online)
    = ["one"; ""]
  /\ fst (receive_twice
         (broker [Bytes (wire (message_to "/queue/x" "one")
                         ++ wire (message_to "/queue/x" "two"))]) online)
    <> ["one"; "two"].
Proof. split; [reflexivity | discriminate]. Qed.

(** ** Encoding and then decoding *)

(** C2, as amended.  For every MESSAGE frame with plain headers and a body
    that is not empty and has no NUL, of at most 4095 bytes on the wire
    and delivered by one read, [receiveMessage] returns exactly the body
    bytes, and that result is not empty.  The result is the body alone:
    the command and the headers are not returned. *)
Theorem body_round_trip (env : Env) (w : World) (f : Frame) :
  connected (self w) = true ->
  command f = MESSAGE -> plain_headers f = true ->
  body f <> "" -> has_char NUL (body f) = false ->
  read_of env w = Bytes (wire f) ->
  String.length (wire f) <= 4095 ->
  fst (receiveMessage env w) = body f
  /\ empty (fst (receiveMessage env w)) = false.
Proof.
  intros Hc Hm Hp Hne Hnul Hr Hlen.
  rewrite <- (append_empty_r (wire f)) in Hr, Hlen.
  rewrite (receiveMessage_wire env w f "" Hc Hm Hp Hr Hlen).
  cbn [fst]. rewrite c_str_id by exact Hnul.
  split; [reflexivity |]. destruct (body f); [now elim Hne | reflexivity].
Qed.

(** C2, witness: a MESSAGE frame with the body [hello]. *)
Lemma body_round_trip_witness :
  fst (receiveMessage (broker [Bytes (wire (message_to "/queue/x" "hello"))])
                      online) = "hello"
  /\ empty (fst (receiveMessage
                   (broker [Bytes (wire (message_to "/queue/x" "hello"))])
                   online)) = false.
Proof.
  apply (body_round_trip
           (broker [Bytes (wire (message_to "/queue/x" "hello"))])
           online (message_to "/queue/x" "hello")).
  - reflexivity.
  - reflexivity.
  - reflexivity.
  - discriminate.
  - reflexivity.
  - reflexivity.
  - vm_compute. lia.
Defined.

(** C2, counterexample: the frame that [sendMessage] writes for the
    payload [hello] has a body that is not empty, and [receiveMessage]
    returns the empty string for it, with the terminator added as
    well as without; and the body of a MESSAGE frame with a NUL in it
    comes back cut. *)
Lemma SEND_frame_does_not_round_trip :
  fst (receiveMessage (broker [Bytes (sendFrame "/queue/x" "hello")]) online)
    = ""
  /\ fst (receiveMessage
            (broker [Bytes (wire (send_as_frame "/queue/x" "hello"))]) online)
    = ""
  /\ body (send_as_frame "/queue/x" "hello") = "hello"
  /\ fst (receiveMessage (broker [Bytes (wire binary_message)]) online)
    <> body binary_message.
Proof. repeat split; try reflexivity. discriminate. Qed.

(** ** The length of the body *)

(** C4, as amended.  The decoder does not read the content-length header.
    For every MESSAGE frame with plain headers, with that header or
    without, of at most 4095 bytes on the wire and delivered by one read,
    the body returned ends before the first NUL byte of the body; the
    payload comes back unchanged exactly when it has no NUL byte. *)
Theorem body_ends_at_first_NUL (env : Env) (w : World) (f : Frame) :
  connected (self w) = true ->
  command f = MESSAGE -> plain_headers f = true ->
  read_of env w = Bytes (wire f) ->
  String.length (wire f) <= 4095 ->
  fst (receiveMessage env w) = c_str (body f)
  /\ (fst (receiveMessage env w) = body f <-> has_char NUL (body f) = false).
Proof.
  intros Hc Hm Hp Hr Hlen.
  rewrite <- (append_empty_r (wire f)) in Hr, Hlen.
  rewrite (receiveMessage_wire env w f "" Hc Hm Hp Hr Hlen).
  cbn [fst]. split; [reflexivity | apply c_str_fixed].
Qed.

(** C4, witness: the frame with content-length 3 and a NUL in its body. *)
Lemma body_ends_at_first_NUL_witness :
  fst (receiveMessage (broker [Bytes (wire binary_message)]) online)
    = c_str (body binary_message)
  /\ (fst (receiveMessage (broker [Bytes (wire binary_message)]) online)
        = body binary_message
      <-> has_char NUL (body binary_message) = false).
Proof.
  apply (body_ends_at_first_NUL (broker [Bytes (wire binary_message)])
                                online binary_message).
  - reflexivity.
  - reflexivity.
  - reflexivity.
  - reflexivity.
  - vm_compute. lia.
Defined.

(** C4, counterexample: the frame says content-length 3 and its body is
    [a], NUL, [b]; the decoder returns the one byte [a]. *)
Lemma content_length_is_not_read :
  In ("content-length", "3") (headers binary_message)
  /\ String.length (body binary_message) = 3
  /\ fst (receiveMessage (broker [Bytes (wire binary_message)]) online) = "a"
  /\ fst (receiveMessage (broker [Bytes (wire binary_message)]) online)
       <> body binary_message.
Proof.
  repeat split; try reflexivity.
  - right. left. reflexivity.
  - discriminate.
Qed.

(** ** The bytes of a SEND frame *)

(** C3, the code at the payload [hello] for [/queue/x].  What
    [sendMessage] writes is the command line, the three header lines with
    [content-length:5], the empty line and the body [hello], and there it
    ends: the last byte is the [o] of the body, the frame has no NUL, and
    it is the frame of the wire layout short of its terminator. *)
Theorem send_hello_has_no_terminator :
  sendMessage (broker []) "/queue/x" "hello" online =
    (true, logged online [Send 3 (sendFrame "/queue/x" "hello") 73])
  /\ sendFrame "/queue/x" "hello" =
       "SEND" ++ LF
       ++ "destination:/queue/x" ++ LF
       ++ "content-type:text/plain" ++ LF
       ++ "content-length:5" ++ LF
       ++ LF
       ++ "hello"
  /\ has_char NUL (sendFrame "/queue/x" "hello") = false
  /\ wire (send_as_frame "/queue/x" "hello") =
       sendFrame "/queue/x" "hello" ++ String NUL "".
Proof. repeat split. Qed.

Lemma digits_no_NUL (d : Decimal.uint) :
  has_char NUL (NilEmpty.string_of_uint d) = false.
Proof. induction d; cbn; auto. Qed.

Lemma to_string_no_NUL (n : nat) : has_char NUL (to_string n) = false.
Proof.
  unfold to_string, NilZero.string_of_uint.
  destruct (Nat.to_uint n); try reflexivity; apply digits_no_NUL.
Qed.

(** The same for every destination and payload: no NUL is written unless
    the destination or the payload holds one. *)
Lemma sendFrame_no_terminator (destination message : string) :
  has_char NUL destination = false -> has_char NUL message = false ->
  has_char NUL (sendFrame destination message) = false.
Proof.
  intros Hd Hm. unfold sendFrame.
  rewrite !has_char_append, Hd, Hm, to_string_no_NUL. reflexivity.
Qed.

(** ** The retry loop *)

Lemma schedule_app (xs ys : list event) :
  schedule (xs ++ ys) = (schedule xs ++ schedule ys)%list.
Proof.
  induction xs as [|e xs IH]; [reflexivity |].
  destruct e; cbn [schedule List.app]; now rewrite IH.
Qed.

(** Closes a goal [trace = trace w ++ ?evs /\ ...] about a straight run. *)
Ltac straight_run :=
  cbn [trace self connected sockfd host port];
  rewrite <- ?List.app_assoc; cbn [List.app];
  repeat split; reflexivity.

(** One call of [connect()] that the transport refuses: it fails, it is
    one attempt without a sleep, and the client stays as connected as it
    was. *)
Lemma connect_refused (env : Env) (a : program) (w : World) :
  (forall h fd name p, (os_connect env h fd name p < 0)%Z) ->
  exists w' evs,
    connect env a w = (false, w')
    /\ trace w' = (trace w ++ evs)%list
    /\ schedule evs = [Attempt]
    /\ connected (self w') = connected (self w).
Proof.
  intros Href.
  unfold connect, bind, socket, set_sockfd, this, gethostbyname, sys_connect,
    cerr, close, emit, ret.
  cbn [fst snd self trace host port sockfd connected].
  destruct (os_socket env (trace w) <? 0)%Z.
  { eexists; eexists. split; [reflexivity | straight_run]. }
  destruct (os_gethostbyname env _ _); cbn [negb].
  2:{ eexists; eexists. split; [reflexivity | straight_run]. }
  match goal with
  | |- context [(os_connect env ?h ?fd ?n ?p <? 0)%Z] =>
      pose proof (Href h fd n p) as Hneg;
      apply Z.ltb_lt in Hneg; rewrite Hneg
  end.
  eexists; eexists. split; [reflexivity | straight_run].
Qed.

Lemma retry_loop_refused (env : Env) (a : program) (N : Z) :
  (forall h fd name p, (os_connect env h fd name p < 0)%Z) ->
  forall (k : nat) (retry : Z) (w : World),
    Z.to_nat (N + 1 - retry) = k ->
    exists w' evs,
      retry_loop env a N retry w = (false, w')
      /\ trace w' = (trace w ++ evs)%list
      /\ schedule evs = spaced k
      /\ connected (self w') = connected (self w).
Proof.
  intros Href. induction k as [|k IH]; intros retry w Hk.
  - rewrite retry_loop_equation_1.
    destruct (Z_le_gt_dec retry N) as [Hle|Hgt]; [lia |].
    exists w, []. cbn. rewrite List.app_nil_r. repeat split.
  - rewrite retry_loop_equation_1.
    destruct (Z_le_gt_dec retry N) as [Hle|Hgt]; [|lia].
    cbn [retry_loop_unfold_clause_1].
    unfold bind at 1 2. unfold cout at 1. unfold emit at 1. cbv beta iota.
    match goal with
    | |- context [connect env a ?w0] =>
        destruct (connect_refused env a w0 Href)
          as (w1 & evs1 & Hrun1 & Htr1 & Hsch1 & Hcon1);
        rewrite Hrun1
    end.
    cbn [trace self] in Htr1, Hcon1.
    destruct (Z.ltb_spec retry N) as [Hlt|Hge].
    + unfold bind, cout, sleep_for, emit. cbv beta iota.
      match goal with
      | |- context [retry_loop env a N (retry + 1) ?w2] =>
          destruct (IH (retry + 1)%Z w2 ltac:(lia))
            as (w3 & evs3 & Hrun3 & Htr3 & Hsch3 & Hcon3);
          rewrite Hrun3
      end.
      cbn [trace self] in Htr3, Hcon3.
      exists w3, ([Cout (tag a ++ " Connection attempt " ++ show_int retry
                         ++ "/" ++ show_int N)]
                  ++ evs1
                  ++ [Cout (tag a ++ " Retrying in 3 seconds...");
                      SleepFor 3000]
                  ++ evs3)%list.
      repeat split.
      * rewrite Htr3, Htr1. rewrite <- !List.app_assoc. reflexivity.
      * rewrite !schedule_app, Hsch1. cbn [List.app schedule].
        rewrite Hsch3. destruct k as [|k]; [lia | reflexivity].
      * congruence.
    + unfold bind, ret. cbv beta iota.
      destruct (IH (retry + 1)%Z w1 ltac:(lia))
        as (w3 & evs3 & Hrun3 & Htr3 & Hsch3 & Hcon3).
      rewrite Hrun3.
      exists w3, ([Cout (tag a ++ " Connection attempt " ++ show_int retry
                         ++ "/" ++ show_int N)]
                  ++ evs1 ++ evs3)%list.
      repeat split.
      * rewrite Htr3, Htr1. rewrite <- !List.app_assoc. reflexivity.
      * rewrite !schedule_app, Hsch1, Hsch3. cbn [List.app schedule].
        assert (k = 0) as -> by lia. reflexivity.
      * congruence.
Qed.

(** C5.  Against a transport that refuses every connection, the retry
    loop with [max_retries = N] makes exactly [N] calls of [connect()],
    sleeps three seconds between one call and the next and not after the
    last, and [main] then reports the failure after [N] attempts and
    returns 1; the client is not connected. *)
Theorem retry_bound (env : Env) (a : program) (N : Z) (w : World) :
  (forall h fd name p, (os_connect env h fd name p < 0)%Z) ->
  (0 <= N < 2147483647)%Z ->
  exists w' evs,
    connect_with_retries env a N w = (Some 1%Z, w')
    /\ trace w' =
         (trace w ++ evs
          ++ [Cerr (tag a ++ " Failed to connect to ActiveMQ after "
                    ++ show_int N ++ " attempts")])%list
    /\ schedule evs = spaced (Z.to_nat N)
    /\ connected (self w') = connected (self w).
Proof.
  intros Href HN. unfold connect_with_retries, bind.
  destruct (retry_loop_refused env a N Href (Z.to_nat N) 1%Z w
              ltac:(f_equal; lia))
    as (w1 & evs & Hrun & Htr & Hsch & Hcon).
  rewrite Hrun. cbn [negb]. unfold cerr, emit, ret. cbv beta iota.
  eexists; exists evs. split; [reflexivity |].
  cbn [trace self]. rewrite Htr, <- List.app_assoc. auto.
Qed.

(** C5, witness: three attempts against a host that refuses. *)
Lemma retry_bound_witness :
  exists w' evs,
    connect_with_retries refusing PRODUCER 3 fresh = (Some 1%Z, w')
    /\ trace w' =
         (trace fresh ++ evs
          ++ [Cerr (tag PRODUCER ++ " Failed to connect to ActiveMQ after "
                    ++ show_int 3 ++ " attempts")])%list
    /\ schedule evs = spaced (Z.to_nat 3)
    /\ connected (self w') = connected (self fresh).
Proof.
  apply (retry_bound refusing PRODUCER 3 fresh).
  - intros h fd name p. simpl. lia.
  - lia.
Defined.

(** The loop as the two programs run it, with [max_retries = 10]. *)
Example ten_attempts :
  schedule (trace (snd (connect_with_retries refusing CONSUMER max_retries
                                              fresh)))
  = [Attempt; Wait 3000; Attempt; Wait 3000; Attempt; Wait 3000; Attempt;
     Wait 3000; Attempt; Wait 3000; Attempt; Wait 3000; Attempt; Wait 3000;
     Attempt; Wait 3000; Attempt; Wait 3000; Attempt]
  /\ fst (connect_with_retries refusing CONSUMER max_retries fresh)
     = Some 1%Z.
Proof. split; reflexivity. Qed.

(** ** Operations on a client that is not connected *)

(** C8.  On a client that is not connected, [sendMessage] and [subscribe]
    both return [false] with the diagnostic [Not connected to broker];
    that diagnostic is the only event, so nothing is written to the
    socket, and the client object is as before. *)
Theorem not_connected_refuses (env : Env) (w : World)
        (destination message subscription_id : string) :
  connected (self w) = false ->
  sendMessage env destination message w =
    (false, logged w [Cerr "Not connected to broker"])
  /\ subscribe env destination subscription_id w =
    (false, logged w [Cerr "Not connected to broker"]).
Proof.
  intros H. unfold sendMessage, subscribe, bind, this. rewrite H.
  split; reflexivity.
Qed.

(** C8, witness: the client as [main] creates it. *)
Lemma not_connected_refuses_witness :
  sendMessage (broker []) "/queue/x" "hello" fresh =
    (false, logged fresh [Cerr "Not connected to broker"])
  /\ subscribe (broker []) "/queue/x" "sub-1" fresh =
    (false, logged fresh [Cerr "Not connected to broker"]).
Proof.
  apply (not_connected_refuses (broker []) fresh "/queue/x" "hello" "sub-1").
  reflexivity.
Defined.

(** ** Disconnecting *)

Lemma disconnect_offline (env : Env) (a : program) (w : World) :
  connected (self w) && (0 <=? sockfd (self w))%Z = false ->
  disconnect env a w = (tt, w).
Proof.
  intros H. unfold disconnect, bind, this. rewrite H. reflexivity.
Qed.

(** C9.  After one call of [disconnect()], a second call does nothing: no
    event, no diagnostic, and the client object is unchanged. *)
Theorem disconnect_idempotent (env : Env) (a : program) (w : World) :
  disconnect env a (snd (disconnect env a w)) =
    (tt, snd (disconnect env a w)).
Proof.
  apply disconnect_offline.
  unfold disconnect, bind, this.
  destruct (connected (self w) && (0 <=? sockfd (self w))%Z) eqn:E.
  - reflexivity.
  - exact E.
Qed.

(** The first call on a connected client writes the DISCONNECT frame and
    closes the socket. *)
Example disconnect_online :
  disconnect (broker []) CONSUMER online =
    (tt, {| self := {| sockfd := 3; host := "activemq"; port := 61613;
                       connected := false |};
            trace := [Send 3 (disconnectFrame CONSUMER) 13; Close 3;
                      Cout "[CONSUMER] Disconnected from ActiveMQ"] |}).
Proof. reflexivity. Qed.

(** ** The handshake *)

Lemma skipn_past {A : Type} (l evs : list A) :
  skipn (List.length l) (l ++ evs) = evs.
Proof. induction l as [|x l IH]; [reflexivity | exact IH]. Qed.

Lemma news_logged (w w' : World) (evs : list event) :
  trace w' = (trace w ++ evs)%list -> news w w' = evs.
Proof. intros H. unfold news. rewrite H. apply skipn_past. Qed.

(** The events of a run whose events are listed one by one. *)
Ltac list_news :=
  match goal with
  | |- context [news ?w ?w'] =>
      rewrite (news_logged w w' _
                 ltac:(cbn [trace]; rewrite <- ?List.app_assoc;
                       cbn [List.app]; reflexivity))
  end.

(** C6, as amended.  When [connect()] has sent the CONNECT frame and made
    its read, and the read has not filled the 1024 bytes of the buffer,
    [connect()] succeeds if and only if the read returned at least one
    byte and the text before its first NUL has [CONNECTED] somewhere in
    it.  On success the client is connected; on failure it is as
    connected as it was before, the diagnostic
    [Failed to receive CONNECTED frame] is written and the socket is
    closed. *)
Theorem connect_handshake (env : Env) (a : program) (w : World)
        (fd n : Z) (buf : string) :
  In (Recv fd 1024 n buf) (news w (snd (connect env a w))) ->
  (n < 1024)%Z ->
  (fst (connect env a w) = true <->
     (0 < n)%Z /\ isSome (find (c_str buf) "CONNECTED" 0) = true)
  /\ connected (self (snd (connect env a w))) =
       (fst (connect env a w) || connected (self w))
  /\ (fst (connect env a w) = false ->
      In (Cerr "Failed to receive CONNECTED frame")
         (news w (snd (connect env a w)))
      /\ In (Close fd) (news w (snd (connect env a w)))).
Proof.
  intros Hin _. revert Hin.
  unfold connect, bind, socket, set_sockfd, this, gethostbyname, sys_connect,
    send, recv, cerr, cout, close, set_connected, emit, ret.
  cbn [fst snd self trace host port sockfd connected].
  destruct (os_socket env (trace w) <? 0)%Z.
  { cbn [fst snd]. list_news. cbn [In]. intuition discriminate. }
  destruct (os_gethostbyname env _ _); cbn [negb].
  2:{ cbn [fst snd]. list_news. cbn [In]. intuition discriminate. }
  destruct (os_connect env _ _ _ _ <? 0)%Z.
  { cbn [fst snd]. list_news. cbn [In]. intuition discriminate. }
  destruct (os_send env _ _ _ <? 0)%Z.
  { cbn [fst snd]. list_news. cbn [In]. intuition discriminate. }
  match goal with
  | |- context [recv_answer ?x 1024] => set (rd := recv_answer x 1024)
  end.
  destruct ((0 <? fst rd)%Z && isSome (find (c_str (snd rd)) "CONNECTED" 0))
    eqn:E; cbn [fst snd self connected orb]; list_news; cbn [In];
    intros Hin;
    repeat (destruct Hin as [Hin | Hin]; try discriminate Hin);
    try contradiction; injection Hin as <- <- <-.
  - apply andb_prop in E as [E1 E2]. apply Z.ltb_lt in E1.
    repeat split; (assumption || discriminate).
  - split; [|split; [reflexivity | intros _; cbn [In]; tauto]].
    split; [discriminate |].
    intros [H1 H2]. apply Z.ltb_lt in H1. rewrite H1, H2 in E.
    discriminate E.
Qed.

(** C6, witness: the broker answers with a CONNECTED frame. *)
Lemma connect_handshake_witness :
  (fst (connect (broker [Bytes (wire connected_frame)]) PRODUCER fresh) = true
   <-> (0 < 24)%Z
       /\ isSome (find (c_str (wire connected_frame)) "CONNECTED" 0) = true)
  /\ connected (self (snd (connect (broker [Bytes (wire connected_frame)])
                                   PRODUCER fresh))) =
       (fst (connect (broker [Bytes (wire connected_frame)]) PRODUCER fresh)
        || connected (self fresh))
  /\ (fst (connect (broker [Bytes (wire connected_frame)]) PRODUCER fresh)
        = false ->
      In (Cerr "Failed to receive CONNECTED frame")
         (news fresh (snd (connect (broker [Bytes (wire connected_frame)])
                                   PRODUCER fresh)))
      /\ In (Close 3)
            (news fresh (snd (connect (broker [Bytes (wire connected_frame)])
                                      PRODUCER fresh)))).
Proof.
  apply (connect_handshake (broker [Bytes (wire connected_frame)]) PRODUCER
                           fresh 3 24 (wire connected_frame)).
  - vm_compute. right. right. right. right. left. reflexivity.
  - lia.
Defined.

(** C6, counterexample: the broker answers the CONNECT frame with an ERROR
    frame whose body has the word CONNECTED in it; [connect()] returns
    [true] and the client is connected. *)
Lemma error_frame_passes_handshake :
  command (error_frame "expected CONNECTED") = ERROR
  /\ fst (connect (broker [Bytes (wire (error_frame "expected CONNECTED"))])
                  CONSUMER fresh) = true
  /\ connected
       (self (snd (connect
                     (broker [Bytes (wire (error_frame "expected CONNECTED"))])
                     CONSUMER fresh))) = true.
Proof. repeat split. Qed.

(** ** Frames that are not MESSAGE frames *)

Lemma receive_loop_one (env : Env) (w : World) (expected n : Z) :
  (n < expected)%Z ->
  fst (receiveMessage env w) = "" ->
  receive_loop env 1 expected n w =
    ((n, false), logged (snd (receiveMessage env w)) [SleepFor 100]).
Proof.
  intros Hn He. cbn [receive_loop].
  apply Z.ltb_lt in Hn. rewrite Hn. unfold bind.
  destruct (receiveMessage env w) as [m w1]. cbn [fst snd] in *. subst m.
  reflexivity.
Qed.

(** C7, as amended.  For every read of at most 4095 bytes whose text
    before the first NUL does not have [MESSAGE] in it (an ERROR frame
    without that word, for one), [receiveMessage] returns the empty
    string, which is also what it returns when the read fails; the
    receive loop then sleeps and leaves the delivery counter as it was.
    No error is reported and the content of the frame is dropped. *)
Theorem silent_without_MESSAGE (env : Env) (w : World) (data : string) :
  connected (self w) = true ->
  read_of env w = Bytes data ->
  String.length data <= 4095 ->
  find (c_str data) "MESSAGE" 0 = None ->
  receiveMessage env w =
    ("", logged w [Recv (sockfd (self w)) 4095
                     (Z.of_nat (String.length data)) data])
  /\ (forall (env' : Env) (w' : World),
        connected (self w') = true -> read_of env' w' = Failure ->
        fst (receiveMessage env' w') = fst (receiveMessage env w))
  /\ (forall expected n : Z,
        (n < expected)%Z ->
        receive_loop env 1 expected n w =
          ((n, false),
           logged (logged w [Recv (sockfd (self w)) 4095
                               (Z.of_nat (String.length data)) data])
                  [SleepFor 100])).
Proof.
  intros Hc Hr Hlen Hfind.
  assert (Hrun : receiveMessage env w =
                 ("", logged w [Recv (sockfd (self w)) 4095
                                  (Z.of_nat (String.length data)) data])).
  { rewrite receiveMessage_online by exact Hc.
    rewrite Hr, recv_answer_fits by exact Hlen. cbn [fst snd].
    unfold parse_response. rewrite Hfind. cbn [isSome].
    destruct (0 <? _)%Z; reflexivity. }
  repeat split.
  - exact Hrun.
  - intros env' w' Hc' Hr'. rewrite Hrun.
    apply receiveMessage_silent; auto.
  - intros expected n Hn.
    rewrite receive_loop_one; [now rewrite Hrun | exact Hn |].
    now rewrite Hrun.
Qed.

(** C7, witness: an ERROR frame with the body [boom]; one iteration of
    the loop reads it, sleeps, and has counted nothing. *)
Lemma silent_without_MESSAGE_witness :
  receiveMessage (broker [Bytes (wire (error_frame "boom"))]) online =
    ("", logged online [Recv 3 4095 29 (wire (error_frame "boom"))])
  /\ receive_loop (broker [Bytes (wire (error_frame "boom"))]) 1
                  expected_messages 0 online =
       ((0%Z, false),
        logged (logged online [Recv 3 4095 29 (wire (error_frame "boom"))])
               [SleepFor 100]).
Proof.
  destruct (silent_without_MESSAGE
              (broker [Bytes (wire (error_frame "boom"))]) online
              (wire (error_frame "boom"))
              eq_refl eq_refl ltac:(vm_compute; lia) eq_refl)
    as (Hread & _ & Hloop).
  split; [exact Hread | apply Hloop; reflexivity].
Defined.

(** C7, counterexample: an ERROR frame gives the same result as a failed
    read, the empty string; and an ERROR frame with the word MESSAGE in its
    body is returned as a payload and counted as a delivery. *)
Lemma error_frame_is_not_reported :
  fst (receiveMessage (broker [Bytes (wire (error_frame "boom"))]) online)
    = fst (receiveMessage (broker [Failure]) online)
  /\ fst (receive_loop
            (broker [Bytes (wire (error_frame "no MESSAGE for you"))])
            1 expected_messages 0 online) = (1%Z, false).
Proof. split; reflexivity. Qed.

(** ** The empty string as a result *)

Lemma receiveMessage_keeps_self (env : Env) (w : World) :
  self (snd (receiveMessage env w)) = self w.
Proof.
  destruct (connected (self w)) eqn:Hc.
  - rewrite receiveMessage_online by exact Hc. reflexivity.
  - rewrite receiveMessage_offline by exact Hc. reflexivity.
Qed.

Lemma receiveMessage_nothing (env : Env) (w : World) :
  connected (self w) = true ->
  nothing_to_deliver (read_of env w) ->
  fst (receiveMessage env w) = "".
Proof.
  intros Hc [H | [H | [(data & H & Hlen & Hfind) | (f & H & Hlen & Hm & Hp & Hb)]]].
  - apply receiveMessage_silent; auto.
  - apply receiveMessage_silent; auto.
  - rewrite receiveMessage_online by exact Hc.
    rewrite H, recv_answer_fits by exact Hlen. cbn [fst snd].
    destruct (0 <? _)%Z; [|reflexivity].
    unfold parse_response.
    destruct Hfind as [-> | ->]; [reflexivity |].
    destruct (isSome _); reflexivity.
  - rewrite <- (append_empty_r (wire f)) in H, Hlen.
    rewrite (receiveMessage_wire env w f "" Hc Hm Hp H Hlen).
    cbn [fst]. now rewrite Hb.
Qed.

Lemma receive_loop_nothing (env : Env) (fd : Z) :
  (forall h, nothing_to_deliver (os_recv env h fd)) ->
  forall (fuel : nat) (expected n : Z) (w : World),
    sockfd (self w) = fd ->
    fst (fst (receive_loop env fuel expected n w)) = n.
Proof.
  intros Hall. induction fuel as [|fuel IH]; intros expected n w Hfd.
  - reflexivity.
  - cbn [receive_loop].
    destruct (n <? expected)%Z; [|reflexivity].
    unfold bind at 1.
    assert (He : fst (receiveMessage env w) = "").
    { destruct (connected (self w)) eqn:Hc.
      - apply receiveMessage_nothing; [exact Hc |].
        unfold read_of. rewrite Hfd. apply Hall.
      - now rewrite receiveMessage_offline. }
    pose proof (receiveMessage_keeps_self env w) as Hself.
    destruct (receiveMessage env w) as [m w1]. cbn [fst snd] in *. subst m.
    cbn [empty negb]. unfold bind, sleep_for, emit. cbv beta iota.
    apply IH. cbn [self]. now rewrite Hself.
Qed.

(** A frame of any command: the text of the read is searched for the
    word MESSAGE as a whole, and the body starts after the first empty
    line, which is the one that ends the head. *)
Lemma parse_response_any_frame (f : Frame) (tail : string) :
  plain_headers f = true -> has_char NUL tail = false ->
  parse_response (frame_head f ++ LF ++ tail) =
    if isSome (find (frame_head f ++ LF ++ tail) "MESSAGE" 0)
    then tail else "".
Proof.
  intros Hp Ht. unfold parse_response.
  destruct (isSome (find (frame_head f ++ LF ++ tail) "MESSAGE" 0));
    [|reflexivity].
  unfold frame_head.
  rewrite find_blank_unlines by (discriminate || now apply frame_lines_ok).
  fold (frame_head f).
  rewrite find_char_absent.
  2:{ rewrite !has_char_append, frame_head_no_NUL, Ht by exact Hp.
      reflexivity. }
  pose proof (length_unlines_pos (token (command f))
                                 (map header_line (headers f))) as Hlen.
  fold (frame_head f) in Hlen.
  replace (String.length (frame_head f) - 1 + 2)
    with (String.length (frame_head f ++ LF))
    by (rewrite length_append; cbn [String.length LF]; lia).
  rewrite <- append_assoc. apply substr_tail.
Qed.

Lemma c_str_wire (f : Frame) :
  plain_headers f = true ->
  c_str (wire f) = frame_head f ++ LF ++ c_str (body f).
Proof.
  intros Hp. rewrite <- (append_empty_r (wire f)), wire_split.
  now rewrite c_str_frame, c_str_cut.
Qed.

Lemma receiveMessage_any_frame (env : Env) (w : World) (f : Frame) :
  connected (self w) = true ->
  plain_headers f = true ->
  read_of env w = Bytes (wire f) ->
  String.length (wire f) <= 4095 ->
  fst (receiveMessage env w) =
    if isSome (find (c_str (wire f)) "MESSAGE" 0)
    then c_str (body f) else "".
Proof.
  intros Hc Hp Hr Hlen.
  assert (Hne : wire f <> "").
  { unfold wire. pose proof (frame_head_not_empty f) as H.
    destruct (frame_head f); [contradiction | discriminate]. }
  rewrite (receiveMessage_read env w _ Hc Hr Hne Hlen). cbn [fst].
  rewrite c_str_wire by exact Hp.
  apply parse_response_any_frame; [exact Hp | apply c_str_no_NUL].
Qed.

(** C10, as amended.  [receiveMessage] returns the empty string when the
    client is not connected, when the read fails or the peer has shut
    down, when the text of the read before its first NUL lacks the word
    MESSAGE or lacks an empty line, and when a MESSAGE frame with plain
    headers and an empty body arrives.  In the receive loop a MESSAGE with
    an empty body is therefore handled like no message at all: while all
    reads are of these kinds, the delivery counter never moves.  A frame
    of any command with plain headers, delivered whole by one read of at
    most 4095 bytes, is decoded like a MESSAGE frame when its text before
    the first NUL has the word MESSAGE in it, in the head or in the body:
    the result is then its body up to the first NUL, so a frame that is
    not a MESSAGE frame is returned as a payload when that body is not
    empty; without the word the result is the empty string. *)
Theorem empty_string_cases (env : Env) :
  (forall w : World,
      connected (self w) = false -> receiveMessage env w = ("", w))
  /\ (forall w : World,
      connected (self w) = true ->
      nothing_to_deliver (read_of env w) ->
      fst (receiveMessage env w) = "")
  /\ (forall fd : Z,
      (forall h, nothing_to_deliver (os_recv env h fd)) ->
      forall (fuel : nat) (expected n : Z) (w : World),
        sockfd (self w) = fd ->
        fst (fst (receive_loop env fuel expected n w)) = n)
  /\ (forall (w : World) (f : Frame),
      connected (self w) = true ->
      plain_headers f = true ->
      read_of env w = Bytes (wire f) ->
      String.length (wire f) <= 4095 ->
      fst (receiveMessage env w) =
        if isSome (find (c_str (wire f)) "MESSAGE" 0)
        then c_str (body f) else "").
Proof.
  split; [|split; [|split]].
  - apply receiveMessage_offline.
  - apply receiveMessage_nothing.
  - apply receive_loop_nothing.
  - apply receiveMessage_any_frame.
Qed.

Lemma empty_message_nothing :
  nothing_to_deliver (Bytes (wire (message_to "/queue/x" ""))).
Proof.
  right. right. right. exists (message_to "/queue/x" "").
  repeat split. vm_compute. lia.
Qed.

(** C10, witness: a client that is not connected, and a connected client
    to which every read brings a MESSAGE frame with an empty body, which
    is a frame with the word MESSAGE in its text and nothing after its
    empty line. *)
Lemma empty_string_cases_witness :
  receiveMessage empty_messages fresh = ("", fresh)
  /\ fst (receiveMessage empty_messages online) = ""
  /\ fst (fst (receive_loop empty_messages 50 expected_messages 0 online))
     = 0%Z
  /\ fst (receiveMessage empty_messages online) =
       (if isSome (find (c_str (wire (message_to "/queue/x" "")))
                        "MESSAGE" 0)
        then c_str (body (message_to "/queue/x" "")) else "").
Proof.
  destruct (empty_string_cases empty_messages) as (H1 & H2 & H3 & H4).
  split; [|split; [|split]].
  - apply H1. reflexivity.
  - apply H2; [reflexivity | exact empty_message_nothing].
  - apply (H3 3%Z); [intros h; exact empty_message_nothing | reflexivity].
  - apply H4; [reflexivity | reflexivity | reflexivity | vm_compute; lia].
Defined.

(** An ERROR frame with the word MESSAGE in a header and an empty body gives
    the empty string; with the word in a body that is not empty it gives
    that body. *)
Example error_frames_with_MESSAGE :
  fst (receiveMessage
         (broker [Bytes (wire {| command := ERROR;
                                 headers := [("message", "bad MESSAGE")];
                                 body := "" |})]) online) = ""
  /\ fst (receiveMessage
            (broker [Bytes (wire (error_frame "MESSAGE lost"))]) online)
     = "MESSAGE lost".
Proof. split; reflexivity. Qed.

(** C10, counterexample: an ERROR frame, which is not a MESSAGE frame, with
    the word MESSAGE in its body; [receiveMessage] returns the body, not
    the empty string. *)
Lemma error_frame_taken_for_message :
  command (error_frame "no MESSAGE for you") <> MESSAGE
  /\ fst (receiveMessage
            (broker [Bytes (wire (error_frame "no MESSAGE for you"))])
            online) = "no MESSAGE for you"
  /\ fst (receiveMessage
            (broker [Bytes (wire (error_frame "no MESSAGE for you"))])
            online) <> "".
Proof. repeat split; discriminate. Qed.

(** ** Runs and what they leave in the trace *)

Lemma opened_app (xs ys : list event) :
  opened (xs ++ ys) = (opened xs ++ opened ys)%list.
Proof.
  induction xs as [|e xs IH]; [reflexivity |].
  destruct e; cbn [opened List.app]; try exact IH.
  match goal with |- context [(0 <=? ?r)%Z] => destruct (0 <=? r)%Z end;
    cbn [List.app]; now rewrite IH.
Qed.

Lemma closed_app (xs ys : list event) :
  closed (xs ++ ys) = (closed xs ++ closed ys)%list.
Proof.
  induction xs as [|e xs IH]; [reflexivity |].
  destruct e; cbn [closed List.app]; now rewrite IH.
Qed.

Lemma written_app (xs ys : list event) :
  written (xs ++ ys) = (written xs ++ written ys)%list.
Proof.
  induction xs as [|e xs IH]; [reflexivity |].
  destruct e; cbn [written List.app]; now rewrite IH.
Qed.

Lemma reads_app (xs ys : list event) : reads (xs ++ ys) = reads xs + reads ys.
Proof.
  unfold reads. now rewrite filter_app, List.length_app.
Qed.

Lemma runs_news {A : Type} (m : M A) (w w' : World) (r : A)
      (evs : list event) :
  runs m w r w' evs -> fst (m w) = r /\ snd (m w) = w' /\ news w (snd (m w)) = evs.
Proof.
  intros [H Ht]. rewrite H. repeat split. now apply news_logged.
Qed.

Lemma runs_ret {A : Type} (x : A) (w : World) : runs (ret x) w x w [].
Proof. split; [reflexivity | now rewrite List.app_nil_r]. Qed.

Lemma runs_emit (e : event) (w : World) : runs (emit e) w tt (logged w [e]) [e].
Proof. split; reflexivity. Qed.

Lemma runs_bind {A B : Type} (m : M A) (k : A -> M B) (w w1 w2 : World)
      (x : A) (y : B) (e1 e2 : list event) :
  runs m w x w1 e1 -> runs (k x) w1 y w2 e2 ->
  runs (bind m k) w y w2 (e1 ++ e2).
Proof.
  intros [H1 T1] [H2 T2]. split.
  - unfold bind. now rewrite H1.
  - now rewrite T2, T1, List.app_assoc.
Qed.

(** ** One call of [connect()], whatever the environment *)

(** Names the result, the final world and the events of a straight run,
    and leaves the facts about them. *)
Ltac name_run :=
  do 3 eexists;
  split;
  [ split;
    [ reflexivity
    | cbn [trace]; rewrite <- ?List.app_assoc; cbn [List.app]; reflexivity ]
  | cbn [schedule self host port connected sockfd opened closed written] ].

Lemma connect_run (env : Env) (a : program) (w : World) :
  exists r w' evs,
    runs (connect env a) w r w' evs
    /\ schedule evs = [Attempt]
    /\ host (self w') = host (self w) /\ port (self w') = port (self w)
    /\ reads evs <= 1 /\ List.length (opened evs) <= 1
    /\ (r = true ->
        connected (self w') = true /\ (0 <= sockfd (self w'))%Z
        /\ opened evs = [sockfd (self w')] /\ closed evs = []
        /\ written evs = [connectFrame a (host (self w))]
        /\ reads evs = 1)
    /\ (r = false ->
        connected (self w') = connected (self w)
        /\ closed evs = opened evs
        /\ (written evs = []
            \/ written evs = [connectFrame a (host (self w))])).
Proof.
  unfold runs, connect, bind, socket, set_sockfd, this, gethostbyname,
    sys_connect, send, recv, cerr, cout, close, set_connected, emit, ret.
  cbn [fst snd self trace host port sockfd connected].
  destruct (Z.ltb_spec (os_socket env (trace w)) 0) as [Hfd|Hfd];
    destruct (Z.leb_spec 0 (os_socket env (trace w))) as [Hfd'|Hfd'];
    try lia.
  { name_run. rewrite (proj2 (Z.leb_gt _ _) Hfd).
    repeat split; try discriminate; auto. }
  assert (Hle : (0 <=? os_socket env (trace w))%Z = true)
    by now apply Z.leb_le.
  destruct (os_gethostbyname env _ _); cbn [negb].
  2:{ name_run. rewrite Hle. repeat split; try discriminate; auto. }
  destruct (os_connect env _ _ _ _ <? 0)%Z.
  { name_run. rewrite Hle. repeat split; try discriminate; auto. }
  destruct (os_send env _ _ _ <? 0)%Z.
  { name_run. rewrite Hle. repeat split; try discriminate; auto. }
  match goal with
  | |- context [recv_answer ?x 1024] => set (rd := recv_answer x 1024)
  end.
  destruct ((0 <? fst rd)%Z && isSome (find (c_str (snd rd)) "CONNECTED" 0));
    name_run; rewrite Hle; repeat split; try discriminate; auto.
Qed.

(** ** The retry loop, whatever the environment *)

Lemma spaced_next (j : nat) :
  1 <= j -> Attempt :: Wait 3000 :: spaced j = spaced (S j).
Proof. destruct j; [lia | reflexivity]. Qed.

Lemma retry_loop_run (env : Env) (a : program) (N : Z) :
  forall (k : nat) (retry : Z) (w : World),
    Z.to_nat (N + 1 - retry) = k ->
    exists r w' evs j,
      runs (retry_loop env a N retry) w r w' evs
      /\ schedule evs = spaced j /\ j <= k
      /\ host (self w') = host (self w) /\ port (self w') = port (self w)
      /\ Forall (eq (connectFrame a (host (self w)))) (written evs)
      /\ (r = true ->
          1 <= j /\ connected (self w') = true /\ (0 <= sockfd (self w'))%Z
          /\ opened evs = (closed evs ++ [sockfd (self w')])%list)
      /\ (r = false ->
          j = k /\ connected (self w') = connected (self w)
          /\ closed evs = opened evs).
Proof.
  induction k as [|k IH]; intros retry w Hk.
  - rewrite retry_loop_equation_1.
    destruct (Z_le_gt_dec retry N) as [Hle|Hgt]; [lia |].
    exists false, w, [], 0. cbn [retry_loop_unfold_clause_1].
    split; [apply runs_ret |].
    repeat split; try discriminate; auto.
  - rewrite retry_loop_equation_1.
    destruct (Z_le_gt_dec retry N) as [Hle|Hgt]; [|lia].
    cbn [retry_loop_unfold_clause_1].
    set (line := tag a ++ " Connection attempt " ++ show_int retry ++ "/"
                 ++ show_int N).
    destruct (connect_run env a (logged w [Cout line]))
      as (r1 & w1 & e1 & Hrun1 & Hs1 & Hh1 & Hp1 & _ & _ & Hok1 & Hko1).
    cbn [logged self] in Hh1, Hp1, Hok1, Hko1.
    pose proof (runs_emit (Cout line) w) as Hrun0.
    destruct r1.
    + destruct (Hok1 eq_refl) as (Hc & Hfd & Hop & Hcl & Hwr & _).
      exists true, w1, ([Cout line] ++ e1 ++ [])%list, 1.
      split.
      { eapply runs_bind; [exact Hrun0 |].
        eapply runs_bind; [exact Hrun1 | apply runs_ret]. }
      rewrite List.app_nil_r. cbn [List.app schedule opened closed written].
      rewrite Hs1, Hop, Hcl, Hwr.
      repeat split; try discriminate; auto; lia.
    + destruct (Hko1 eq_refl) as (Hc & Hcl & Hwr).
      destruct (Z.ltb_spec retry N) as [Hlt|Hge].
      * set (e2 := [Cout (tag a ++ " Retrying in 3 seconds..."); SleepFor 3000]).
        assert (Hrun2 : runs (cout (tag a ++ " Retrying in 3 seconds...") ;;
                              sleep_for 3000)
                             w1 tt
                             (logged (logged w1 [Cout (tag a ++
                                        " Retrying in 3 seconds...")])
                                     [SleepFor 3000]) e2).
        { eapply (runs_bind _ _ _ _ _ _ _ [_] [_]); apply runs_emit. }
        set (w2 := logged (logged w1 [Cout (tag a ++
                                         " Retrying in 3 seconds...")])
                          [SleepFor 3000]) in Hrun2.
        destruct (IH (retry + 1)%Z w2 ltac:(lia))
          as (r3 & w3 & e3 & j & Hrun3 & Hs3 & Hj & Hh3 & Hp3 & Hw3 & Hok3
              & Hko3).
        cbn [w2 logged self] in Hh3, Hp3, Hw3, Hok3, Hko3.
        exists r3, w3, ([Cout line] ++ e1 ++ e2 ++ e3)%list, (S j).
        split.
        { eapply runs_bind; [exact Hrun0 |].
          eapply runs_bind; [exact Hrun1 |]. cbv beta iota.
          eapply runs_bind; [exact Hrun2 | exact Hrun3]. }
        assert (Hj1 : 1 <= j).
        { destruct r3; [now destruct (Hok3 eq_refl) |].
          destruct (Hko3 eq_refl) as [-> _]. lia. }
        cbn [List.app schedule opened closed written].
        rewrite !schedule_app, !opened_app, !closed_app, !written_app, Hs1.
        cbn [List.app schedule opened closed written e2].
        rewrite Hs3, Hcl, Hh3, Hp3, Hh1, Hp1.
        split; [now apply spaced_next |]. split; [lia |].
        split; [reflexivity |]. split; [reflexivity |].
        split.
        { apply Forall_app. split; [|now rewrite <- Hh1].
          destruct Hwr as [-> | ->]; repeat constructor. }
        split.
        { intros ->. destruct (Hok3 eq_refl) as (_ & Hc3 & Hfd3 & Hop3).
          rewrite Hop3, List.app_assoc. repeat split; auto; lia. }
        { intros ->. destruct (Hko3 eq_refl) as (-> & Hc3 & Hcl3).
          rewrite Hcl3. repeat split; congruence || lia. }
      * destruct (IH (retry + 1)%Z w1 ltac:(lia))
          as (r3 & w3 & e3 & j & Hrun3 & Hs3 & Hj & Hh3 & Hp3 & Hw3 & Hok3
              & Hko3).
        assert (k = 0) by lia. subst k.
        assert (j = 0) by lia. subst j.
        destruct r3; [destruct (Hok3 eq_refl); lia |].
        destruct (Hko3 eq_refl) as (_ & Hc3 & Hcl3).
        exists false, w3, ([Cout line] ++ e1 ++ [] ++ e3)%list, 1.
        split.
        { eapply runs_bind; [exact Hrun0 |].
          eapply runs_bind; [exact Hrun1 |]. cbv beta iota.
          eapply runs_bind; [apply runs_ret | exact Hrun3]. }
        cbn [List.app schedule opened closed written].
        rewrite !schedule_app, !opened_app, !closed_app, !written_app, Hs1, Hs3.
        rewrite Hcl, Hcl3, Hh3, Hp3, Hh1, Hp1.
        repeat split; try discriminate; try congruence; try lia.
        apply Forall_app. split; [|now rewrite <- Hh1].
        destruct Hwr as [-> | ->]; repeat constructor.
Qed.

(** ** The other operations, whatever the environment *)

Lemma sendMessage_run (env : Env) (destination message : string)
      (w : World) :
  exists r w' evs,
    runs (sendMessage env destination message) w r w' evs
    /\ self w' = self w
    /\ schedule evs = [] /\ opened evs = [] /\ closed evs = []
    /\ reads evs = 0
    /\ written evs = (if connected (self w)
                      then [sendFrame destination message] else [])
    /\ (r = true -> connected (self w) = true).
Proof.
  unfold runs, sendMessage, bind, this, send, cerr, emit, ret.
  destruct (connected (self w)); cbn [negb fst snd self trace].
  - destruct (os_send env _ _ _ <? 0)%Z; name_run;
      repeat split; auto.
  - name_run. repeat split; auto; discriminate.
Qed.

Lemma subscribe_run (env : Env) (destination subscription_id : string)
      (w : World) :
  exists r w' evs,
    runs (subscribe env destination subscription_id) w r w' evs
    /\ self w' = self w
    /\ schedule evs = [] /\ opened evs = [] /\ closed evs = []
    /\ reads evs = 0
    /\ written evs = (if connected (self w)
                      then [subscribeFrame destination subscription_id]
                      else [])
    /\ (r = true -> connected (self w) = true).
Proof.
  unfold runs, subscribe, bind, this, send, cerr, cout, emit, ret.
  destruct (connected (self w)); cbn [negb fst snd self trace].
  - destruct (os_send env _ _ _ <? 0)%Z; name_run;
      repeat split; auto.
  - name_run. repeat split; auto; discriminate.
Qed.

Lemma receiveMessage_run (env : Env) (w : World) :
  exists r w' evs,
    runs (receiveMessage env) w r w' evs
    /\ self w' = self w
    /\ schedule evs = [] /\ opened evs = [] /\ closed evs = []
    /\ written evs = []
    /\ reads evs = (if connected (self w) then 1 else 0)
    /\ (empty r = false -> reads evs = 1).
Proof.
  destruct (connected (self w)) eqn:Hc.
  - unfold runs. rewrite receiveMessage_online by exact Hc. cbv zeta.
    do 3 eexists. split; [split; reflexivity |]. repeat split.
  - exists "", w, []. unfold runs.
    rewrite receiveMessage_offline, List.app_nil_r by exact Hc.
    repeat split. discriminate.
Qed.

Lemma disconnect_run (env : Env) (a : program) (w : World) :
  exists w' evs,
    runs (disconnect env a) w tt w' evs
    /\ schedule evs = [] /\ opened evs = [] /\ reads evs = 0
    /\ host (self w') = host (self w) /\ port (self w') = port (self w)
    /\ sockfd (self w') = sockfd (self w)
    /\ (if connected (self w) && (0 <=? sockfd (self w))%Z
        then closed evs = [sockfd (self w)]
             /\ written evs = [disconnectFrame a]
             /\ connected (self w') = false
        else evs = [] /\ w' = w).
Proof.
  unfold runs, disconnect, bind, this, send, close, set_connected, cout,
    emit, ret.
  destruct (connected (self w) && (0 <=? sockfd (self w))%Z);
    cbn [fst snd self trace].
  - do 2 eexists. split; [split; [reflexivity |] |].
    + cbn [trace]. rewrite <- ?List.app_assoc. cbn [List.app]. reflexivity.
    + repeat split.
  - exists w, []. split; [split; [reflexivity | now rewrite List.app_nil_r] |].
    repeat split.
Qed.

(** ** The send loop of the producer *)

Lemma runs_generateMessageId (now : list event -> string) (index : Z)
      (w : World) :
  runs (generateMessageId now index) w
       ("MSG_" ++ now (trace w) ++ "_INDEX_" ++ show_int index) w [].
Proof. split; [reflexivity | now rewrite List.app_nil_r]. Qed.

Lemma send_loop_run (env : Env) (now : list event -> string) (count : Z) :
  forall (k : nat) (i : Z) (w : World),
    Z.to_nat (count + 1 - i) = k ->
    exists w' evs,
      runs (send_loop env now count i) w tt w' evs
      /\ self w' = self w
      /\ opened evs = [] /\ closed evs = [] /\ reads evs = 0
      /\ schedule evs = repeat (Wait 1000) (k - 1)
      /\ (if connected (self w)
          then Forall2
                 (fun j data =>
                    exists stamp,
                      data = sendFrame queue_destination
                               ("Hello from C++ Producer - "
                                ++ "MSG_" ++ stamp ++ "_INDEX_"
                                ++ show_int j))
                 (indices i k) (written evs)
          else written evs = []).
Proof.
  induction k as [|k IH]; intros i w Hk.
  - rewrite send_loop_equation_1.
    destruct (Z_le_gt_dec i count) as [Hle|Hgt]; [lia |].
    exists w, []. cbn [send_loop_unfold_clause_1].
    split; [apply runs_ret |].
    repeat split. destruct (connected (self w)); constructor.
  - rewrite send_loop_equation_1.
    destruct (Z_le_gt_dec i count) as [Hle|Hgt]; [|lia].
    cbn [send_loop_unfold_clause_1].
    pose proof (runs_generateMessageId now i w) as Hrun0.
    set (id := "MSG_" ++ now (trace w) ++ "_INDEX_" ++ show_int i) in *.
    set (line := "[PRODUCER] Sending message " ++ show_int i ++ "/"
                 ++ show_int count ++ ": "
                 ++ "Hello from C++ Producer - " ++ id).
    pose proof (runs_emit (Cout line) w) as Hrun1.
    destruct (sendMessage_run env queue_destination
                ("Hello from C++ Producer - " ++ id) (logged w [Cout line]))
      as (ok & w2 & e2 & Hrun2 & Hself2 & Hs2 & Ho2 & Hc2 & Hr2 & Hw2 & _).
    cbn [logged self] in Hself2, Hw2.
    assert (Hrun3 : exists e3 w3,
               runs (if ok
                     then cout ("[PRODUCER] Message " ++ show_int i
                                ++ " sent successfully")
                     else cerr ("[PRODUCER] Failed to send message "
                                ++ show_int i)) w2 tt w3 [e3]
               /\ self w3 = self w2 /\ schedule [e3] = []
               /\ opened [e3] = [] /\ closed [e3] = []
               /\ written [e3] = [] /\ reads [e3] = 0).
    { destruct ok; do 2 eexists; (split; [apply runs_emit |]);
        repeat split. }
    destruct Hrun3 as (e3 & w3 & Hrun3 & Hself3 & Hs3 & Ho3 & Hc3 & Hw3 & Hr3).
    assert (Hrun4 : exists e4 w4,
               runs (if (i <? count)%Z then sleep_for 1000 else ret tt)
                    w3 tt w4 e4
               /\ self w4 = self w3
               /\ schedule e4 = (if (i <? count)%Z then [Wait 1000] else [])
               /\ opened e4 = [] /\ closed e4 = []
               /\ written e4 = [] /\ reads e4 = 0).
    { destruct (i <? count)%Z; do 2 eexists;
        (split; [apply runs_emit || apply runs_ret |]); repeat split. }
    destruct Hrun4 as (e4 & w4 & Hrun4 & Hself4 & Hs4 & Ho4 & Hc4 & Hw4 & Hr4).
    destruct (IH (i + 1)%Z w4 ltac:(lia))
      as (w5 & e5 & Hrun5 & Hself5 & Ho5 & Hc5 & Hr5 & Hs5 & Hw5).
    assert (Hself : self w4 = self w) by congruence.
    rewrite Hself in Hw5.
    exists w5, ([] ++ [Cout line] ++ e2 ++ [e3] ++ e4 ++ e5)%list.
    split.
    { eapply runs_bind; [exact Hrun0 |]. cbv zeta.
      eapply runs_bind; [exact Hrun1 |].
      eapply runs_bind; [exact Hrun2 |]. cbv beta.
      eapply runs_bind; [exact Hrun3 |].
      eapply runs_bind; [exact Hrun4 | exact Hrun5]. }
    rewrite !schedule_app, !opened_app, !closed_app, !written_app, !reads_app.
    rewrite Hs2, Ho2, Hc2, Hr2, Hs3, Ho3, Hc3, Hw3, Hr3, Hs4, Ho4, Hc4, Hw4,
      Hr4, Hs5, Ho5, Hc5, Hr5, Hw2.
    change (reads []) with 0. change (reads [Cout line]) with 0.
    cbn [List.app schedule opened closed written Nat.add].
    repeat split; try congruence.
    + destruct (Z.ltb_spec i count) as [Hlt|Hge]; cbn [List.app].
      * destruct k as [|k]; [lia |].
        replace (S (S k) - 1) with (S k) by lia.
        replace (S k - 1) with k by lia. reflexivity.
      * assert (k = 0) as -> by lia. reflexivity.
    + destruct (connected (self w)); cbn [List.app indices].
      * constructor; [now exists (now (trace w)) | exact Hw5].
      * exact Hw5.
Qed.

(** ** The connection phase of [main], whatever the environment *)

Lemma connect_with_retries_run (env : Env) (a : program) (N : Z) (w : World) :
  exists r w' evs j,
    runs (connect_with_retries env a N) w r w' evs
    /\ schedule evs = spaced j /\ j <= Z.to_nat N
    /\ host (self w') = host (self w) /\ port (self w') = port (self w)
    /\ Forall (eq (connectFrame a (host (self w)))) (written evs)
    /\ (r = None \/ r = Some 1%Z)
    /\ (r = None ->
        1 <= j /\ connected (self w') = true /\ (0 <= sockfd (self w'))%Z
        /\ opened evs = (closed evs ++ [sockfd (self w')])%list)
    /\ (r = Some 1%Z ->
        j = Z.to_nat N /\ connected (self w') = connected (self w)
        /\ closed evs = opened evs).
Proof.
  destruct (retry_loop_run env a N (Z.to_nat N) 1%Z w ltac:(f_equal; lia))
    as (r & w1 & e1 & j & Hrun & Hs & Hj & Hh & Hp & Hw & Hok & Hko).
  unfold connect_with_retries. destruct r; cbn [negb].
  - destruct (Hok eq_refl) as (Hj1 & Hc & Hfd & Hop).
    exists None, w1, (e1 ++ [])%list, j.
    split; [eapply runs_bind; [exact Hrun | apply runs_ret] |].
    rewrite List.app_nil_r.
    repeat split; auto; discriminate.
  - destruct (Hko eq_refl) as (-> & Hc & Hcl).
    set (line := tag a ++ " Failed to connect to ActiveMQ after "
                 ++ show_int N ++ " attempts").
    exists (Some 1%Z), (logged w1 [Cerr line]),
      (e1 ++ [Cerr line] ++ [])%list, (Z.to_nat N).
    split.
    { eapply runs_bind; [exact Hrun |]. cbv beta iota.
      eapply runs_bind; [apply runs_emit | apply runs_ret]. }
    rewrite List.app_nil_r, schedule_app, opened_app, closed_app, written_app.
    cbn [schedule opened closed written logged self].
    rewrite !List.app_nil_r.
    repeat split; auto; discriminate.
Qed.

(** X4.  The retry loop in every run in which no handshake read fills the
    response buffer.  With [max_retries = N], an [int] below [INT_MAX] so
    that [++retry] does not overflow, [main] makes at most [N] calls of
    [connect()], sleeps three seconds between one call and the next and
    never after the last, and goes on only with a connected client; it
    gives up with exit code 1 only after exactly [N] failed calls. *)
Theorem retry_schedule (env : Env) (a : program) (N : Z) (w : World) :
  handshakes_fit (news w (snd (connect_with_retries env a N w))) = true ->
  (0 <= N < 2147483647)%Z ->
  exists j : nat,
    schedule (news w (snd (connect_with_retries env a N w))) = spaced j
    /\ (Z.of_nat j <= N)%Z
    /\ (fst (connect_with_retries env a N w) = None
        \/ fst (connect_with_retries env a N w) = Some 1%Z)
    /\ (fst (connect_with_retries env a N w) = None ->
        1 <= j
        /\ connected (self (snd (connect_with_retries env a N w))) = true)
    /\ (fst (connect_with_retries env a N w) = Some 1%Z ->
        Z.of_nat j = N
        /\ connected (self (snd (connect_with_retries env a N w))) =
             connected (self w)).
Proof.
  intros _ HN.
  destruct (connect_with_retries_run env a N w)
    as (r & w' & evs & j & Hrun & Hs & Hj & _ & _ & _ & Hr & Hok & Hko).
  apply runs_news in Hrun as (-> & -> & ->).
  exists j. repeat split; auto.
  - lia.
  - now apply Hok.
  - now apply Hok.
  - destruct (Hko H) as [-> _]. lia.
  - now apply Hko.
Qed.

(** X4, witness: the broker answers the first attempt with CONNECTED. *)
Lemma retry_schedule_witness :
  exists j : nat,
    schedule (news fresh (snd (connect_with_retries welcoming PRODUCER 10
                                                    fresh))) = spaced j
    /\ (Z.of_nat j <= 10)%Z
    /\ (fst (connect_with_retries welcoming PRODUCER 10 fresh) = None
        \/ fst (connect_with_retries welcoming PRODUCER 10 fresh) = Some 1%Z)
    /\ (fst (connect_with_retries welcoming PRODUCER 10 fresh) = None ->
        1 <= j
        /\ connected (self (snd (connect_with_retries welcoming PRODUCER 10
                                                      fresh))) = true)
    /\ (fst (connect_with_retries welcoming PRODUCER 10 fresh) = Some 1%Z ->
        Z.of_nat j = 10%Z
        /\ connected (self (snd (connect_with_retries welcoming PRODUCER 10
                                                      fresh))) =
             connected (self fresh)).
Proof.
  apply (retry_schedule welcoming PRODUCER 10 fresh); [reflexivity | lia].
Defined.

(** A first attempt that succeeds is the only one, and nothing is slept. *)
Example first_attempt_succeeds :
  schedule (news fresh (snd (connect_with_retries welcoming PRODUCER 10
                                                  fresh))) = [Attempt]
  /\ fst (connect_with_retries welcoming PRODUCER 10 fresh) = None.
Proof. split; reflexivity. Qed.

(** X1.  [connect()] and the socket, when its read has not filled the
    response buffer.  A call that fails closes the socket it opened, if it
    opened one, and leaves the connected flag as it was; a call that
    succeeds keeps its socket open, stores it in [sockfd] and sets the
    flag. *)
Theorem connect_releases_socket (env : Env) (a : program) (w : World) :
  handshakes_fit (news w (snd (connect env a w))) = true ->
  if fst (connect env a w)
  then closed (news w (snd (connect env a w))) = []
       /\ opened (news w (snd (connect env a w))) =
            [sockfd (self (snd (connect env a w)))]
       /\ (0 <= sockfd (self (snd (connect env a w))))%Z
       /\ connected (self (snd (connect env a w))) = true
  else closed (news w (snd (connect env a w))) =
         opened (news w (snd (connect env a w)))
       /\ List.length (opened (news w (snd (connect env a w)))) <= 1
       /\ connected (self (snd (connect env a w))) = connected (self w).
Proof.
  intros _.
  destruct (connect_run env a w)
    as (r & w' & evs & Hrun & _ & _ & _ & _ & Hone & Hok & Hko).
  apply runs_news in Hrun as (-> & -> & ->).
  destruct r.
  - destruct (Hok eq_refl) as (Hc & Hfd & Hop & Hcl & _). auto.
  - destruct (Hko eq_refl) as (Hc & Hcl & _). auto.
Qed.

(** A reply that fills the 1024 bytes of the response buffer is outside
    these statements. *)
Example full_reply_is_set_aside :
  handshakes_fit
    (news fresh
       (snd (connect
               (broker [Bytes (string_of_list_ascii
                                 (List.repeat "C"%char 1024))])
               PRODUCER fresh))) = false.
Proof. vm_compute. reflexivity. Qed.

(** X1, witness: the broker answers the CONNECT frame with CONNECTED. *)
Lemma connect_releases_socket_witness :
  if fst (connect welcoming PRODUCER fresh)
  then closed (news fresh (snd (connect welcoming PRODUCER fresh))) = []
       /\ opened (news fresh (snd (connect welcoming PRODUCER fresh))) =
            [sockfd (self (snd (connect welcoming PRODUCER fresh)))]
       /\ (0 <= sockfd (self (snd (connect welcoming PRODUCER fresh))))%Z
       /\ connected (self (snd (connect welcoming PRODUCER fresh))) = true
  else closed (news fresh (snd (connect welcoming PRODUCER fresh))) =
         opened (news fresh (snd (connect welcoming PRODUCER fresh)))
       /\ List.length
            (opened (news fresh (snd (connect welcoming PRODUCER fresh)))) <= 1
       /\ connected (self (snd (connect welcoming PRODUCER fresh))) =
            connected (self fresh).
Proof.
  apply (connect_releases_socket welcoming PRODUCER fresh). reflexivity.
Defined.


(** X2.  What [connect()] puts on the wire, when its read has not filled
    the response buffer.  It gives nothing to [send()], or the CONNECT
    frame once and nothing else, and reads at most once; when it succeeds
    it has given the frame to [send()] and read once. *)
Theorem connect_traffic (env : Env) (a : program) (w : World) :
  handshakes_fit (news w (snd (connect env a w))) = true ->
  (written (news w (snd (connect env a w))) = []
   \/ written (news w (snd (connect env a w))) =
        [connectFrame a (host (self w))])
  /\ reads (news w (snd (connect env a w))) <= 1
  /\ (if fst (connect env a w)
      then written (news w (snd (connect env a w))) =
             [connectFrame a (host (self w))]
           /\ reads (news w (snd (connect env a w))) = 1
      else True).
Proof.
  intros _.
  destruct (connect_run env a w)
    as (r & w' & evs & Hrun & _ & _ & _ & Hr & _ & Hok & Hko).
  apply runs_news in Hrun as (-> & -> & ->).
  destruct r.
  - destruct (Hok eq_refl) as (_ & _ & _ & _ & Hw & Hr1). auto.
  - destruct (Hko eq_refl) as (_ & _ & Hw). auto.
Qed.

(** X2, witness: the broker answers the CONNECT frame with CONNECTED. *)
Lemma connect_traffic_witness :
  (written (news fresh (snd (connect welcoming CONSUMER fresh))) = []
   \/ written (news fresh (snd (connect welcoming CONSUMER fresh))) =
        [connectFrame CONSUMER (host (self fresh))])
  /\ reads (news fresh (snd (connect welcoming CONSUMER fresh))) <= 1
  /\ (if fst (connect welcoming CONSUMER fresh)
      then written (news fresh (snd (connect welcoming CONSUMER fresh))) =
             [connectFrame CONSUMER (host (self fresh))]
           /\ reads (news fresh (snd (connect welcoming CONSUMER fresh))) = 1
      else True).
Proof. apply (connect_traffic welcoming CONSUMER fresh). reflexivity. Defined.


(** ** The producer's [main] *)

Lemma runs_construct (h : string) (p : Z) (w : World) :
  runs (construct h p) w tt {| self := new_client h p; trace := trace w |} [].
Proof. split; [reflexivity | cbn [trace]; now rewrite List.app_nil_r]. Qed.

Lemma producer_main_run (env : Env) (now : list event -> string)
      (w : World) :
  exists code w' evs,
    runs (producer_main env now) w code w' evs
    /\ closed evs = opened evs
    /\ connected (self w') = false
    /\ ((code = 1%Z
         /\ schedule evs = spaced 10
         /\ Forall (eq (connectFrame PRODUCER broker_host)) (written evs))
        \/ (code = 0%Z
            /\ exists j pre sends,
                1 <= j <= 10
                /\ schedule evs = (spaced j ++ repeat (Wait 1000) 9)%list
                /\ written evs =
                     (pre ++ sends ++ [disconnectFrame PRODUCER])%list
                /\ Forall (eq (connectFrame PRODUCER broker_host)) pre
                /\ Forall2
                     (fun i data =>
                        exists stamp,
                          data = sendFrame queue_destination
                                   ("Hello from C++ Producer - "
                                    ++ "MSG_" ++ stamp ++ "_INDEX_"
                                    ++ show_int i))
                     (indices 1 10) sends)).
Proof.
  set (e0 := Cout "[PRODUCER] Starting C++ Producer Application").
  pose proof (runs_emit e0 w) as Hrun0.
  pose proof (runs_construct broker_host broker_port (logged w [e0])) as Hrun1.
  set (w1 := {| self := new_client broker_host broker_port;
                trace := trace (logged w [e0]) |}) in Hrun1.
  destruct (connect_with_retries_run env PRODUCER max_retries w1)
    as (r & w2 & e2 & j & Hrun2 & Hs2 & Hj & _ & _ & Hw2 & Hr & Hok & Hko).
  cbn [w1 self host new_client] in Hw2.
  unfold producer_main.
  destruct Hr as [-> | ->].
  - destruct (Hok eq_refl) as (Hj1 & Hc2 & Hfd2 & Hop2).
    set (e3 := Cout ("[PRODUCER] Sending " ++ show_int message_count
                     ++ " messages to " ++ queue_destination)).
    pose proof (runs_emit e3 w2) as Hrun3.
    destruct (send_loop_run env now message_count 10 1%Z (logged w2 [e3])
                eq_refl)
      as (w4 & e4 & Hrun4 & Hself4 & Ho4 & Hc4 & _ & Hs4 & Hw4).
    cbn [logged self] in Hself4, Hw4. rewrite Hc2 in Hw4.
    set (e5 := Cout "[PRODUCER] All messages sent. Disconnecting...").
    pose proof (runs_emit e5 w4) as Hrun5.
    destruct (disconnect_run env PRODUCER (logged w4 [e5]))
      as (w6 & e6 & Hrun6 & Hs6 & Ho6 & _ & _ & _ & _ & Hd6).
    cbn [logged self] in Hd6. rewrite Hself4, Hc2 in Hd6.
    rewrite (proj2 (Z.leb_le _ _) Hfd2) in Hd6. cbn [andb] in Hd6.
    destruct Hd6 as (Hc6 & Hw6 & Hcon6).
    set (e7 := Cout "[PRODUCER] Producer application completed successfully").
    pose proof (runs_emit e7 w6) as Hrun7.
    destruct (disconnect_run env PRODUCER (logged w6 [e7]))
      as (w8 & e8 & Hrun8 & _ & _ & _ & _ & _ & _ & Hd8).
    cbn [logged self] in Hd8. rewrite Hcon6 in Hd8. cbn [andb] in Hd8.
    destruct Hd8 as (-> & ->).
    exists 0%Z, (logged w6 [e7]),
      ([e0] ++ [] ++ e2 ++ [e3] ++ e4 ++ [e5] ++ e6 ++ [e7] ++ [] ++ [])%list.
    split.
    { eapply runs_bind; [exact Hrun0 |].
      eapply runs_bind; [exact Hrun1 |].
      eapply runs_bind; [exact Hrun2 |]. cbv beta iota.
      eapply runs_bind; [exact Hrun3 |].
      eapply runs_bind; [exact Hrun4 |].
      eapply runs_bind; [exact Hrun5 |].
      eapply runs_bind; [exact Hrun6 |].
      eapply runs_bind; [exact Hrun7 |].
      eapply runs_bind; [exact Hrun8 | apply runs_ret]. }
    rewrite !schedule_app, !opened_app, !closed_app, !written_app.
    rewrite Hs2, Hop2, Hs4, Ho4, Hc4, Hs6, Ho6, Hc6, Hw6.
    cbn [schedule opened closed written e0 e3 e5 e7 List.app logged self].
    rewrite !List.app_nil_r.
    split; [reflexivity |]. split; [exact Hcon6 |].
    right. split; [reflexivity |].
    exists j, (written e2), (written e4).
    repeat split; auto.
  - destruct (Hko eq_refl) as (-> & Hc2 & Hcl2).
    destruct (disconnect_run env PRODUCER w2)
      as (w3 & e3 & Hrun3 & _ & _ & _ & _ & _ & _ & Hd3).
    rewrite Hc2 in Hd3. cbn [w1 self connected new_client andb] in Hd3.
    destruct Hd3 as (-> & ->).
    exists 1%Z, w2, ([e0] ++ [] ++ e2 ++ [] ++ [])%list.
    split.
    { eapply runs_bind; [exact Hrun0 |].
      eapply runs_bind; [exact Hrun1 |].
      eapply runs_bind; [exact Hrun2 |]. cbv beta iota.
      eapply runs_bind; [exact Hrun3 | apply runs_ret]. }
    rewrite !List.app_nil_r.
    cbn [List.app schedule opened closed written e0].
    split; [exact Hcl2 |]. split; [exact Hc2 |].
    left. repeat split; auto.
Qed.

(** X7.  The producer and its sockets.  In every run in which no handshake
    read fills the response buffer, [main] of the producer ends with exit
    code 0 or 1, with the client not connected, and having closed exactly
    the sockets it opened, in the order it opened them. *)
Theorem producer_main_sockets (env : Env) (now : list event -> string)
        (w : World) :
  handshakes_fit (news w (snd (producer_main env now w))) = true ->
  closed (news w (snd (producer_main env now w))) =
    opened (news w (snd (producer_main env now w)))
  /\ connected (self (snd (producer_main env now w))) = false
  /\ (fst (producer_main env now w) = 0%Z
      \/ fst (producer_main env now w) = 1%Z).
Proof.
  intros _.
  destruct (producer_main_run env now w)
    as (code & w' & evs & Hrun & Hcl & Hcon & Hcode).
  apply runs_news in Hrun as (-> & -> & ->).
  repeat split; auto.
  destruct Hcode as [[-> _] | [-> _]]; auto.
Qed.

(** X7, witness: a broker that answers the handshake and then refuses every
    write. *)
Lemma producer_main_sockets_witness :
  closed (news fresh (snd (producer_main deaf noon fresh))) =
    opened (news fresh (snd (producer_main deaf noon fresh)))
  /\ connected (self (snd (producer_main deaf noon fresh))) = false
  /\ (fst (producer_main deaf noon fresh) = 0%Z
      \/ fst (producer_main deaf noon fresh) = 1%Z).
Proof. apply (producer_main_sockets deaf noon fresh). reflexivity. Defined.


(** X8.  The producer that gives up.  When [main] of the producer returns
    1, no handshake read having filled the response buffer, it has made
    exactly ten attempts, three seconds apart, and has given nothing but
    CONNECT frames to [send()]: no message was sent. *)
Theorem producer_main_gives_up (env : Env) (now : list event -> string)
        (w : World) :
  handshakes_fit (news w (snd (producer_main env now w))) = true ->
  fst (producer_main env now w) = 1%Z ->
  schedule (news w (snd (producer_main env now w))) = spaced 10
  /\ Forall (eq (connectFrame PRODUCER broker_host))
            (written (news w (snd (producer_main env now w)))).
Proof.
  destruct (producer_main_run env now w)
    as (code & w' & evs & Hrun & Hcl & Hcon & Hcode).
  apply runs_news in Hrun as (-> & -> & ->).
  intros _ ->. destruct Hcode as [(_ & Hs & Hw) | [H _]]; [auto | discriminate].
Qed.

(** X8, witness: a host that refuses every connection. *)
Lemma producer_main_gives_up_witness :
  schedule (news fresh (snd (producer_main refusing noon fresh))) = spaced 10
  /\ Forall (eq (connectFrame PRODUCER broker_host))
            (written (news fresh (snd (producer_main refusing noon fresh)))).
Proof.
  apply (producer_main_gives_up refusing noon fresh); reflexivity.
Defined.

(** X9.  The producer that got through.  When [main] of the producer
    returns 0, no handshake read having filled the response buffer, it has
    given to [send()], after the CONNECT frames of its attempts, exactly
    ten SEND frames to [/queue/ProjectQueue], with the indices 1 to 10 in
    this order, and then the DISCONNECT frame; it has slept one second
    between one message and the next, nine times.  Whether the writes
    succeeded plays no part: the exit code is 0 all the same. *)
Theorem producer_main_sends_ten (env : Env) (now : list event -> string)
        (w : World) :
  handshakes_fit (news w (snd (producer_main env now w))) = true ->
  fst (producer_main env now w) = 0%Z ->
  exists (j : nat) (pre sends : list string),
    1 <= j <= 10
    /\ schedule (news w (snd (producer_main env now w))) =
         (spaced j ++ repeat (Wait 1000) 9)%list
    /\ written (news w (snd (producer_main env now w))) =
         (pre ++ sends ++ [disconnectFrame PRODUCER])%list
    /\ Forall (eq (connectFrame PRODUCER broker_host)) pre
    /\ Forall2
         (fun i data =>
            exists stamp,
              data = sendFrame queue_destination
                       ("Hello from C++ Producer - "
                        ++ "MSG_" ++ stamp ++ "_INDEX_" ++ show_int i))
         (indices 1 10) sends.
Proof.
  destruct (producer_main_run env now w)
    as (code & w' & evs & Hrun & Hcl & Hcon & Hcode).
  apply runs_news in Hrun as (-> & -> & ->).
  intros _ ->. destruct Hcode as [[H _] | (_ & H)]; [discriminate | exact H].
Qed.

(** X9, witness: a broker that answers the handshake and then refuses every
    write; the producer still returns 0. *)
Lemma producer_main_sends_ten_witness :
  exists (j : nat) (pre sends : list string),
    1 <= j <= 10
    /\ schedule (news fresh (snd (producer_main deaf noon fresh))) =
         (spaced j ++ repeat (Wait 1000) 9)%list
    /\ written (news fresh (snd (producer_main deaf noon fresh))) =
         (pre ++ sends ++ [disconnectFrame PRODUCER])%list
    /\ Forall (eq (connectFrame PRODUCER broker_host)) pre
    /\ Forall2
         (fun i data =>
            exists stamp,
              data = sendFrame queue_destination
                       ("Hello from C++ Producer - "
                        ++ "MSG_" ++ stamp ++ "_INDEX_" ++ show_int i))
         (indices 1 10) sends.
Proof. apply (producer_main_sends_ten deaf noon fresh); reflexivity. Defined.

(** With every write refused after the handshake, each of the ten
    messages is reported as failed and the exit code is 0. *)
Example producer_main_deaf :
  fst (producer_main deaf noon fresh) = 0%Z
  /\ List.length
       (filter (fun e => match e with
                         | Cerr "Error sending message" => true
                         | _ => false
                         end)
               (trace (snd (producer_main deaf noon fresh)))) = 10.
Proof. split; reflexivity. Qed.

(** ** The receive loop of the consumer, whatever the environment *)

Lemma receive_loop_run (env : Env) :
  forall (fuel : nat) (expected n : Z) (w : World),
  exists c left w' evs,
    runs (receive_loop env fuel expected n) w (c, left) w' evs
    /\ self w' = self w
    /\ opened evs = [] /\ closed evs = [] /\ written evs = []
    /\ (n <= c)%Z /\ (c <= Z.max n expected)%Z
    /\ (left = true -> (expected <= c)%Z)
    /\ Z.to_nat (c - n) <= reads evs /\ reads evs <= fuel.
Proof.
  induction fuel as [|fuel IH]; intros expected n w.
  - exists n, false, w, []. split; [apply runs_ret |].
    repeat split; try discriminate; try lia. cbn. lia.
  - cbn [receive_loop].
    destruct (Z.ltb_spec n expected) as [Hlt|Hge].
    2:{ exists n, true, w, []. split; [apply runs_ret |].
        repeat split; try lia. cbn. lia. }
    destruct (receiveMessage_run env w)
      as (m & w1 & e1 & Hrun1 & Hself1 & _ & Ho1 & Hc1 & Hw1 & Hr1 & Hne1).
    assert (Hr1' : reads e1 <= 1) by (rewrite Hr1; destruct (connected _); lia).
    destruct (empty m) eqn:Em; cbn [negb].
    + pose proof (runs_emit (SleepFor 100) w1) as Hrun2.
      destruct (IH expected n (logged w1 [SleepFor 100]))
        as (c & left & w3 & e3 & Hrun3 & Hself3 & Ho3 & Hc3 & Hw3 & Hn & Hmax
            & Hleft & Hd & Hr3).
      exists c, left, w3, (e1 ++ [SleepFor 100] ++ e3)%list.
      split.
      { eapply runs_bind; [exact Hrun1 |]. cbv beta. rewrite Em. cbn [negb].
        eapply runs_bind; [exact Hrun2 | exact Hrun3]. }
      rewrite !opened_app, !closed_app, !written_app, !reads_app.
      rewrite Ho1, Hc1, Hw1, Ho3, Hc3, Hw3.
      change (reads [SleepFor 100]) with 0.
      cbn [logged self] in Hself3.
      repeat split; auto; try congruence; lia.
    + specialize (Hne1 eq_refl).
      set (line := "[CONSUMER] Received message " ++ show_int (n + 1) ++ "/"
                   ++ show_int expected ++ ": " ++ m).
      pose proof (runs_emit (Cout line) w1) as Hrun2.
      destruct (Z.leb_spec expected (n + 1)) as [Hdone|Hmore].
      * set (last := Cout ("[CONSUMER] All " ++ show_int expected
                           ++ " messages received successfully!")).
        exists (n + 1)%Z, true, (logged (logged w1 [Cout line]) [last]),
          (e1 ++ [Cout line] ++ [last] ++ [])%list.
        split.
        { eapply runs_bind; [exact Hrun1 |]. cbv beta. rewrite Em.
          cbn [negb]. cbv zeta. rewrite Z.geb_leb.
          rewrite (proj2 (Z.leb_le _ _) Hdone).
          eapply runs_bind; [exact Hrun2 |].
          eapply runs_bind; [apply runs_emit | apply runs_ret]. }
        rewrite !opened_app, !closed_app, !written_app, !reads_app.
        rewrite Ho1, Hc1, Hw1, Hne1.
        repeat split; auto; try lia.
        replace (n + 1 - n)%Z with 1%Z by lia. cbn. lia.
      * destruct (IH expected (n + 1)%Z (logged w1 [Cout line]))
          as (c & left & w3 & e3 & Hrun3 & Hself3 & Ho3 & Hc3 & Hw3 & Hn & Hmax
              & Hleft & Hd & Hr3).
        exists c, left, w3, (e1 ++ [Cout line] ++ e3)%list.
        split.
        { eapply runs_bind; [exact Hrun1 |]. cbv beta. rewrite Em.
          cbn [negb]. cbv zeta. rewrite Z.geb_leb.
          rewrite (proj2 (Z.leb_gt _ _) Hmore).
          eapply runs_bind; [exact Hrun2 | exact Hrun3]. }
        rewrite !opened_app, !closed_app, !written_app, !reads_app.
        rewrite Ho1, Hc1, Hw1, Ho3, Hc3, Hw3, Hne1.
        change (reads [Cout line]) with 0.
        cbn [logged self] in Hself3.
        repeat split; auto; try congruence; lia.
Qed.

(** X12.  Bounds of the receive loop.  Whatever arrives, the loop only reads:
    it writes nothing, opens and closes nothing and leaves the client
    object as it was.  The counter never goes down, never passes
    [expected_messages] (unless it started above it), has reached it when
    the loop is left, and grows by at most one per read. *)
Theorem receive_loop_bounds (env : Env) (fuel : nat) (expected n : Z)
        (w : World) :
  (n <= fst (fst (receive_loop env fuel expected n w))
     <= Z.max n expected)%Z
  /\ (if snd (fst (receive_loop env fuel expected n w))
      then (expected <= fst (fst (receive_loop env fuel expected n w)))%Z
      else True)
  /\ Z.to_nat (fst (fst (receive_loop env fuel expected n w)) - n)
       <= reads (news w (snd (receive_loop env fuel expected n w)))
       <= fuel
  /\ self (snd (receive_loop env fuel expected n w)) = self w
  /\ written (news w (snd (receive_loop env fuel expected n w))) = []
  /\ opened (news w (snd (receive_loop env fuel expected n w))) = []
  /\ closed (news w (snd (receive_loop env fuel expected n w))) = [].
Proof.
  destruct (receive_loop_run env fuel expected n w)
    as (c & left & w' & evs & Hrun & Hself & Ho & Hc & Hw & Hn & Hmax & Hleft
        & Hd & Hr).
  apply runs_news in Hrun as (-> & -> & ->). cbn [fst snd].
  repeat split; auto.
  destruct left; auto.
Qed.

Lemma receive_loop_delivers_run (env : Env) (fd : Z) (expected : Z) :
  (forall h, deliverable (os_recv env h fd)) ->
  forall (fuel : nat) (n : Z) (w : World),
    connected (self w) = true -> sockfd (self w) = fd ->
    (n < expected)%Z -> Z.to_nat (expected - n) <= fuel ->
    exists w' evs,
      runs (receive_loop env fuel expected n) w (expected, true) w' evs
      /\ reads evs = Z.to_nat (expected - n)
      /\ schedule evs = [].
Proof.
  intros Hall. induction fuel as [|fuel IH]; intros n w Hcon Hfd Hn Hfuel;
    [lia |].
  cbn [receive_loop]. rewrite (proj2 (Z.ltb_lt _ _) Hn).
  destruct (Hall (trace w)) as (f & Hf & Hlen & Hm & Hp & Hne & Hnul).
  rewrite <- Hfd in Hf. fold (read_of env w) in Hf.
  rewrite <- (append_empty_r (wire f)) in Hf, Hlen.
  pose proof (receiveMessage_wire env w f "" Hcon Hm Hp Hf Hlen) as Hrecv.
  rewrite append_empty_r in Hrecv. rewrite c_str_id in Hrecv by exact Hnul.
  set (e1 := Recv (sockfd (self w)) 4095
                  (Z.of_nat (String.length (wire f))) (wire f)) in Hrecv.
  assert (Hrun1 : runs (receiveMessage env) w (body f) (logged w [e1]) [e1])
    by (split; [exact Hrecv | reflexivity]).
  assert (Em : empty (body f) = false)
    by (destruct (body f); [now elim Hne | reflexivity]).
  set (line := "[CONSUMER] Received message " ++ show_int (n + 1) ++ "/"
               ++ show_int expected ++ ": " ++ body f).
  pose proof (runs_emit (Cout line) (logged w [e1])) as Hrun2.
  destruct (Z.leb_spec expected (n + 1)) as [Hdone|Hmore].
  - assert (Heq : (expected = n + 1)%Z) by lia.
    clear IH. subst expected.
    set (last := Cout ("[CONSUMER] All " ++ show_int (n + 1)
                       ++ " messages received successfully!")).
    do 2 eexists. split.
    { eapply runs_bind; [exact Hrun1 |]. cbv beta. rewrite Em.
      cbn [negb]. cbv zeta. rewrite Z.geb_leb.
      rewrite (proj2 (Z.leb_le _ _) Hdone).
      eapply runs_bind; [exact Hrun2 |].
      eapply runs_bind; [apply (runs_emit last) | apply runs_ret]. }
    split; [|reflexivity].
    replace (n + 1 - n)%Z with 1%Z by lia. reflexivity.
  - destruct (IH (n + 1)%Z (logged (logged w [e1]) [Cout line]) Hcon Hfd
                ltac:(lia) ltac:(lia))
      as (w3 & e3 & Hrun3 & Hr3 & Hs3).
    exists w3, ([e1] ++ [Cout line] ++ e3)%list. split.
    { eapply runs_bind; [exact Hrun1 |]. cbv beta. rewrite Em.
      cbn [negb]. cbv zeta. rewrite Z.geb_leb.
      rewrite (proj2 (Z.leb_gt _ _) Hmore).
      eapply runs_bind; [exact Hrun2 | exact Hrun3]. }
    rewrite !reads_app, !schedule_app, Hr3, Hs3.
    change (reads [e1]) with 1. change (reads [Cout line]) with 0.
    split; [lia | reflexivity].
Qed.

(** X13.  The receive loop when messages keep coming.  On a connected client
    to which every read brings one MESSAGE frame with a payload, the loop
    started below [expected_messages] counts one delivery per read, never
    sleeps, and is left with the counter at [expected_messages] as soon as
    that many reads have been made. *)
Theorem receive_loop_delivers (env : Env) (fuel : nat) (expected n : Z)
        (w : World) :
  (forall h, deliverable (os_recv env h (sockfd (self w)))) ->
  connected (self w) = true ->
  (n < expected)%Z -> Z.to_nat (expected - n) <= fuel ->
  fst (receive_loop env fuel expected n w) = (expected, true)
  /\ reads (news w (snd (receive_loop env fuel expected n w))) =
       Z.to_nat (expected - n)
  /\ schedule (news w (snd (receive_loop env fuel expected n w))) = [].
Proof.
  intros Hall Hcon Hn Hfuel.
  destruct (receive_loop_delivers_run env _ expected Hall fuel n w Hcon
              eq_refl Hn Hfuel) as (w' & evs & Hrun & Hr & Hs).
  apply runs_news in Hrun as (-> & -> & ->). auto.
Qed.

Lemma chatty_deliverable (h : list event) (fd : Z) :
  deliverable (os_recv chatty h fd).
Proof.
  exists (message_to "/queue/ProjectQueue" "hi").
  repeat split; try discriminate. vm_compute. lia.
Qed.

(** X13, witness: ten reads, ten deliveries. *)
Lemma receive_loop_delivers_witness :
  fst (receive_loop chatty 10 10 0 online) = (10%Z, true)
  /\ reads (news online (snd (receive_loop chatty 10 10 0 online))) =
       Z.to_nat (10 - 0)
  /\ schedule (news online (snd (receive_loop chatty 10 10 0 online))) = [].
Proof.
  apply (receive_loop_delivers chatty 10 10 0 online).
  - intros h. apply chatty_deliverable.
  - reflexivity.
  - lia.
  - simpl. lia.
Defined.

Lemma receive_loop_waits_run (env : Env) (fd : Z) (expected : Z) :
  (forall h, nothing_to_deliver (os_recv env h fd)) ->
  forall (fuel : nat) (n : Z) (w : World),
    sockfd (self w) = fd -> (n < expected)%Z ->
    exists w' evs,
      runs (receive_loop env fuel expected n) w (n, false) w' evs
      /\ schedule evs = repeat (Wait 100) fuel.
Proof.
  intros Hall. induction fuel as [|fuel IH]; intros n w Hfd Hn.
  - exists w, []. split; [apply runs_ret | reflexivity].
  - cbn [receive_loop]. rewrite (proj2 (Z.ltb_lt _ _) Hn).
    destruct (receiveMessage_run env w)
      as (m & w1 & e1 & Hrun1 & Hself1 & Hs1 & _).
    assert (Hm : m = "").
    { destruct Hrun1 as [Hrun1 _].
      assert (He : fst (receiveMessage env w) = "").
      { destruct (connected (self w)) eqn:Hc.
        - apply receiveMessage_nothing; [exact Hc |].
          unfold read_of. rewrite Hfd. apply Hall.
        - now rewrite receiveMessage_offline. }
      now rewrite Hrun1 in He. }
    subst m.
    destruct (IH n (logged w1 [SleepFor 100]) ltac:(cbn; congruence) Hn)
      as (w3 & e3 & Hrun3 & Hs3).
    exists w3, (e1 ++ [SleepFor 100] ++ e3)%list. split.
    { eapply runs_bind; [exact Hrun1 |]. cbv beta. cbn [empty negb].
      eapply runs_bind; [apply (runs_emit (SleepFor 100)) | exact Hrun3]. }
    rewrite !schedule_app, Hs1, Hs3. reflexivity.
Qed.

(** X14.  The receive loop when nothing comes.  While every read is one from
    which [receiveMessage] takes no payload (the peer has shut down, the
    read fails, the text has no MESSAGE or no empty line, or the body is
    empty), the loop started below [expected_messages] is never left:
    after any number of iterations it is still running with the counter
    where it was, having slept 100 ms in each iteration. *)
Theorem receive_loop_waits (env : Env) (fuel : nat) (expected n : Z)
        (w : World) :
  (forall h, nothing_to_deliver (os_recv env h (sockfd (self w)))) ->
  (n < expected)%Z ->
  fst (receive_loop env fuel expected n w) = (n, false)
  /\ schedule (news w (snd (receive_loop env fuel expected n w))) =
       repeat (Wait 100) fuel.
Proof.
  intros Hall Hn.
  destruct (receive_loop_waits_run env _ expected Hall fuel n w eq_refl Hn)
    as (w' & evs & Hrun & Hs).
  apply runs_news in Hrun as (-> & -> & ->). auto.
Qed.

(** X14, witness: the peer has shut down; forty iterations, forty sleeps. *)
Lemma receive_loop_waits_witness :
  fst (receive_loop gone 40 10 0 online) = (0%Z, false)
  /\ schedule (news online (snd (receive_loop gone 40 10 0 online))) =
       repeat (Wait 100) 40.
Proof.
  apply (receive_loop_waits gone 40 10 0 online).
  - intros h. left. reflexivity.
  - lia.
Defined.

(** ** The consumer's [main] *)

Lemma consumer_main_run (env : Env) (fuel : nat) (w : World) :
  exists r w' evs pre,
    runs (consumer_main env fuel) w r w' evs
    /\ Forall (eq (connectFrame CONSUMER broker_host)) pre
    /\ match r with
       | Some code =>
           closed evs = opened evs
           /\ connected (self w') = false
           /\ ((code = 1%Z
                /\ (written evs = pre
                    \/ written evs =
                         (pre ++ [subscribeFrame queue_destination "sub-1";
                                  disconnectFrame CONSUMER])%list))
               \/ (code = 0%Z
                   /\ written evs =
                        (pre ++ [subscribeFrame queue_destination "sub-1";
                                 disconnectFrame CONSUMER])%list
                   /\ In (Cout "[CONSUMER] Total messages received: 10") evs
                   /\ 10 <= reads evs))
       | None =>
           connected (self w') = true
           /\ opened evs = (closed evs ++ [sockfd (self w')])%list
           /\ written evs =
                (pre ++ [subscribeFrame queue_destination "sub-1"])%list
       end.
Proof.
  set (e0 := Cout "[CONSUMER] Starting C++ Consumer Application").
  pose proof (runs_emit e0 w) as Hrun0.
  pose proof (runs_construct broker_host broker_port (logged w [e0])) as Hrun1.
  set (w1 := {| self := new_client broker_host broker_port;
                trace := trace (logged w [e0]) |}) in Hrun1.
  destruct (connect_with_retries_run env CONSUMER max_retries w1)
    as (r & w2 & e2 & j & Hrun2 & Hs2 & Hj & _ & _ & Hw2 & Hr & Hok & Hko).
  cbn [w1 self host new_client] in Hw2.
  unfold consumer_main.
  destruct Hr as [-> | ->].
  - destruct (Hok eq_refl) as (Hj1 & Hc2 & Hfd2 & Hop2).
    destruct (subscribe_run env queue_destination "sub-1" w2)
      as (ok & w3 & e3 & Hrun3 & Hself3 & _ & Ho3 & Hc3 & _ & Hw3 & _).
    rewrite Hc2 in Hw3.
    destruct ok; cbn [negb].
    + set (e4 := Cout ("[CONSUMER] Waiting for messages from "
                       ++ queue_destination)).
      set (e5 := Cout ("[CONSUMER] Expected to receive "
                       ++ show_int expected_messages ++ " messages")).
      pose proof (runs_emit e4 w3) as Hrun4.
      pose proof (runs_emit e5 (logged w3 [e4])) as Hrun5.
      destruct (receive_loop_run env fuel expected_messages 0
                  (logged (logged w3 [e4]) [e5]))
        as (c & left & w6 & e6 & Hrun6 & Hself6 & Ho6 & Hc6 & Hw6 & Hn & Hmax
            & Hleft & Hd & _).
      cbn [logged self] in Hself6.
      destruct left; cbn [snd fst].
      * assert (c = 10%Z) as ->.
        { specialize (Hleft eq_refl). unfold expected_messages in *. lia. }
        set (e7 := Cout ("[CONSUMER] Total messages received: "
                         ++ show_int 10)).
        set (e8 := Cout "[CONSUMER] Shutting down gracefully...").
        pose proof (runs_emit e7 w6) as Hrun7.
        pose proof (runs_emit e8 (logged w6 [e7])) as Hrun8.
        destruct (disconnect_run env CONSUMER (logged (logged w6 [e7]) [e8]))
          as (w9 & e9 & Hrun9 & _ & Ho9 & Hr9 & _ & _ & _ & Hd9).
        cbn [logged self] in Hd9. rewrite Hself6, Hself3, Hc2 in Hd9.
        rewrite (proj2 (Z.leb_le _ _) Hfd2) in Hd9. cbn [andb] in Hd9.
        destruct Hd9 as (Hc9 & Hw9 & Hcon9).
        set (e10 := Cout
                      "[CONSUMER] Consumer application completed successfully").
        pose proof (runs_emit e10 w9) as Hrun10.
        destruct (disconnect_run env CONSUMER (logged w9 [e10]))
          as (w11 & e11 & Hrun11 & _ & _ & _ & _ & _ & _ & Hd11).
        cbn [logged self] in Hd11. rewrite Hcon9 in Hd11. cbn [andb] in Hd11.
        destruct Hd11 as (-> & ->).
        exists (Some 0%Z), (logged w9 [e10]),
          ([e0] ++ [] ++ e2 ++ e3 ++ [e4] ++ [e5] ++ e6 ++ [e7] ++ [e8] ++ e9
           ++ [e10] ++ [] ++ [])%list, (written e2).
        split.
        { eapply runs_bind; [exact Hrun0 |].
          eapply runs_bind; [exact Hrun1 |].
          eapply runs_bind; [exact Hrun2 |]. cbv beta iota.
          eapply runs_bind; [exact Hrun3 |]. cbv beta iota. cbn [negb].
          eapply runs_bind; [exact Hrun4 |].
          eapply runs_bind; [exact Hrun5 |].
          eapply runs_bind; [exact Hrun6 |]. cbv beta iota. cbn [snd fst].
          eapply runs_bind; [exact Hrun7 |].
          eapply runs_bind; [exact Hrun8 |].
          eapply runs_bind; [exact Hrun9 |].
          eapply runs_bind; [exact Hrun10 |].
          eapply runs_bind; [exact Hrun11 | apply runs_ret]. }
        split; [exact Hw2 |].
        rewrite !opened_app, !closed_app, !written_app, !reads_app.
        rewrite Hop2, Ho3, Hc3, Hw3, Ho6, Hc6, Hw6, Ho9, Hc9, Hw9.
        cbn [opened closed written e0 e4 e5 e7 e8 e10 List.app logged self].
        rewrite !List.app_nil_r.
        split; [reflexivity |]. split; [exact Hcon9 |].
        right. split; [reflexivity |].
        split; [reflexivity |].
        split.
        { right. apply in_or_app. right. apply in_or_app. right.
          right. right. apply in_or_app. right. left. reflexivity. }
        change (Z.to_nat (10 - 0)) with 10 in Hd. lia.
      * exists None, w6,
          ([e0] ++ [] ++ e2 ++ e3 ++ [e4] ++ [e5] ++ e6 ++ [])%list,
          (written e2).
        split.
        { eapply runs_bind; [exact Hrun0 |].
          eapply runs_bind; [exact Hrun1 |].
          eapply runs_bind; [exact Hrun2 |]. cbv beta iota.
          eapply runs_bind; [exact Hrun3 |]. cbv beta iota. cbn [negb].
          eapply runs_bind; [exact Hrun4 |].
          eapply runs_bind; [exact Hrun5 |].
          eapply runs_bind; [exact Hrun6 |]. cbv beta iota. cbn [snd fst].
          apply runs_ret. }
        split; [exact Hw2 |].
        rewrite !opened_app, !closed_app, !written_app.
        rewrite Hop2, Ho3, Hc3, Hw3, Ho6, Hc6, Hw6.
        cbn [opened closed written e0 e4 e5 List.app].
        rewrite !List.app_nil_r, Hself6, Hself3.
        repeat split; auto.
    + set (e4 := Cerr ("[CONSUMER] Failed to subscribe to "
                       ++ queue_destination)).
      pose proof (runs_emit e4 w3) as Hrun4.
      destruct (disconnect_run env CONSUMER (logged w3 [e4]))
        as (w5 & e5 & Hrun5 & _ & Ho5 & _ & _ & _ & _ & Hd5).
      cbn [logged self] in Hd5. rewrite Hself3, Hc2 in Hd5.
      rewrite (proj2 (Z.leb_le _ _) Hfd2) in Hd5. cbn [andb] in Hd5.
      destruct Hd5 as (Hc5 & Hw5 & Hcon5).
      exists (Some 1%Z), w5, ([e0] ++ [] ++ e2 ++ e3 ++ [e4] ++ e5 ++ [])%list,
        (written e2).
      split.
      { eapply runs_bind; [exact Hrun0 |].
        eapply runs_bind; [exact Hrun1 |].
        eapply runs_bind; [exact Hrun2 |]. cbv beta iota.
        eapply runs_bind; [exact Hrun3 |]. cbv beta iota. cbn [negb].
        eapply runs_bind; [exact Hrun4 |].
        eapply runs_bind; [exact Hrun5 | apply runs_ret]. }
      split; [exact Hw2 |].
      rewrite !opened_app, !closed_app, !written_app.
      rewrite Hop2, Ho3, Hc3, Hw3, Ho5, Hc5, Hw5.
      cbn [opened closed written e0 e4 List.app].
      rewrite !List.app_nil_r.
      split; [reflexivity |]. split; [exact Hcon5 |].
      left. split; [reflexivity |]. right. reflexivity.
  - destruct (Hko eq_refl) as (-> & Hc2 & Hcl2).
    destruct (disconnect_run env CONSUMER w2)
      as (w3 & e3 & Hrun3 & _ & _ & _ & _ & _ & _ & Hd3).
    rewrite Hc2 in Hd3. cbn [w1 self connected new_client andb] in Hd3.
    destruct Hd3 as (-> & ->).
    exists (Some 1%Z), w2, ([e0] ++ [] ++ e2 ++ [] ++ [])%list, (written e2).
    split.
    { eapply runs_bind; [exact Hrun0 |].
      eapply runs_bind; [exact Hrun1 |].
      eapply runs_bind; [exact Hrun2 |]. cbv beta iota.
      eapply runs_bind; [exact Hrun3 | apply runs_ret]. }
    split; [exact Hw2 |].
    rewrite !List.app_nil_r.
    cbn [List.app opened closed written e0].
    split; [exact Hcl2 |]. split; [exact Hc2 |].
    left. split; [reflexivity |]. left. reflexivity.
Qed.

(** X15.  The consumer and its sockets, in every run in which no handshake
    read fills the response buffer.  When [main] of the consumer has
    returned, with exit code 0 or 1, the client is not connected and
    exactly the sockets that were opened have been closed, in the same
    order; this holds also when it returns because [subscribe] failed,
    where the destructor does the disconnecting.  While the receive loop
    is still running, the client is connected and the last socket opened
    is the one not yet closed. *)
Theorem consumer_main_sockets (env : Env) (fuel : nat) (w : World) :
  handshakes_fit (news w (snd (consumer_main env fuel w))) = true ->
  match fst (consumer_main env fuel w) with
  | Some code =>
      closed (news w (snd (consumer_main env fuel w))) =
        opened (news w (snd (consumer_main env fuel w)))
      /\ connected (self (snd (consumer_main env fuel w))) = false
      /\ (code = 0%Z \/ code = 1%Z)
  | None =>
      connected (self (snd (consumer_main env fuel w))) = true
      /\ opened (news w (snd (consumer_main env fuel w))) =
           (closed (news w (snd (consumer_main env fuel w)))
            ++ [sockfd (self (snd (consumer_main env fuel w)))])%list
  end.
Proof.
  intros _.
  destruct (consumer_main_run env fuel w)
    as (r & w' & evs & pre & Hrun & Hpre & H).
  apply runs_news in Hrun as (-> & -> & ->).
  destruct r as [code|].
  - destruct H as (Hcl & Hcon & [[-> _] | [-> _]]); auto.
  - destruct H as (Hcon & Hop & _). auto.
Qed.

(** X15, witness: ten messages after the handshake. *)
Lemma consumer_main_sockets_witness :
  match fst (consumer_main serving 10 fresh) with
  | Some code =>
      closed (news fresh (snd (consumer_main serving 10 fresh))) =
        opened (news fresh (snd (consumer_main serving 10 fresh)))
      /\ connected (self (snd (consumer_main serving 10 fresh))) = false
      /\ (code = 0%Z \/ code = 1%Z)
  | None =>
      connected (self (snd (consumer_main serving 10 fresh))) = true
      /\ opened (news fresh (snd (consumer_main serving 10 fresh))) =
           (closed (news fresh (snd (consumer_main serving 10 fresh)))
            ++ [sockfd (self (snd (consumer_main serving 10 fresh)))])%list
  end.
Proof. apply (consumer_main_sockets serving 10 fresh). reflexivity. Defined.


(** X16.  What the consumer writes.  In every run of [main] of the consumer
    in which no handshake read fills the response buffer, what is given to
    [send()] is the CONNECT frames of the attempts and then at most the
    SUBSCRIBE frame for [/queue/ProjectQueue] with the id [sub-1] and the
    DISCONNECT frame, in this order.  A run that has returned has written
    both or neither; a run whose receive loop is still going has written
    the SUBSCRIBE frame only. *)
Theorem consumer_main_writes (env : Env) (fuel : nat) (w : World) :
  handshakes_fit (news w (snd (consumer_main env fuel w))) = true ->
  exists pre : list string,
    Forall (eq (connectFrame CONSUMER broker_host)) pre
    /\ match fst (consumer_main env fuel w) with
       | Some code =>
           (written (news w (snd (consumer_main env fuel w))) = pre
            /\ code = 1%Z)
           \/ written (news w (snd (consumer_main env fuel w))) =
                (pre ++ [subscribeFrame queue_destination "sub-1";
                         disconnectFrame CONSUMER])%list
       | None =>
           written (news w (snd (consumer_main env fuel w))) =
             (pre ++ [subscribeFrame queue_destination "sub-1"])%list
       end.
Proof.
  intros _.
  destruct (consumer_main_run env fuel w)
    as (r & w' & evs & pre & Hrun & Hpre & H).
  apply runs_news in Hrun as (-> & -> & ->).
  exists pre. split; [exact Hpre |].
  destruct r as [code|].
  - destruct H as (_ & _ & [(-> & [H | H]) | (_ & H & _)]); auto.
  - destruct H as (_ & _ & H). exact H.
Qed.

(** X16, witness: a broker that answers the handshake and then refuses
    every write. *)
Lemma consumer_main_writes_witness :
  exists pre : list string,
    Forall (eq (connectFrame CONSUMER broker_host)) pre
    /\ match fst (consumer_main deaf 10 fresh) with
       | Some code =>
           (written (news fresh (snd (consumer_main deaf 10 fresh))) = pre
            /\ code = 1%Z)
           \/ written (news fresh (snd (consumer_main deaf 10 fresh))) =
                (pre ++ [subscribeFrame queue_destination "sub-1";
                         disconnectFrame CONSUMER])%list
       | None =>
           written (news fresh (snd (consumer_main deaf 10 fresh))) =
             (pre ++ [subscribeFrame queue_destination "sub-1"])%list
       end.
Proof. apply (consumer_main_writes deaf 10 fresh). reflexivity. Defined.


(** X17.  The consumer that returns 0.  When [main] of the consumer returns
    0, no handshake read having filled the response buffer, it has made at
    least ten reads in all and has reported exactly ten messages
    received. *)
Theorem consumer_main_counts_ten (env : Env) (fuel : nat) (w : World) :
  handshakes_fit (news w (snd (consumer_main env fuel w))) = true ->
  fst (consumer_main env fuel w) = Some 0%Z ->
  In (Cout "[CONSUMER] Total messages received: 10")
     (news w (snd (consumer_main env fuel w)))
  /\ 10 <= reads (news w (snd (consumer_main env fuel w))).
Proof.
  destruct (consumer_main_run env fuel w)
    as (r & w' & evs & pre & Hrun & Hpre & H).
  apply runs_news in Hrun as (-> & -> & ->).
  intros _ ->. destruct H as (_ & _ & [[H _] | (_ & _ & H)]);
    [discriminate | exact H].
Qed.

(** X17, witness: ten messages after the handshake. *)
Lemma consumer_main_counts_ten_witness :
  In (Cout "[CONSUMER] Total messages received: 10")
     (news fresh (snd (consumer_main serving 10 fresh)))
  /\ 10 <= reads (news fresh (snd (consumer_main serving 10 fresh))).
Proof.
  apply (consumer_main_counts_ten serving 10 fresh); reflexivity.
Defined.

(** A consumer whose SUBSCRIBE cannot be written returns 1, and its
    destructor still writes DISCONNECT and closes the socket. *)
Example consumer_main_deaf :
  fst (consumer_main deaf 10 fresh) = Some 1%Z
  /\ written (news fresh (snd (consumer_main deaf 10 fresh))) =
       [connectFrame CONSUMER broker_host;
        subscribeFrame queue_destination "sub-1";
        disconnectFrame CONSUMER]
  /\ closed (news fresh (snd (consumer_main deaf 10 fresh))) = [3%Z].
Proof. repeat split. Qed.

(** ** [connect()] and then [disconnect()] *)

(** X3.  On a client that is not connected, [connect()] followed by
    [disconnect()], the read of [connect()] not having filled the response
    buffer, leaves the client not connected and has closed exactly the
    socket that was opened, once: by [connect()] if it failed, by
    [disconnect()] if it succeeded. *)
Theorem connect_then_disconnect (env : Env) (a : program) (w : World) :
  handshakes_fit
    (news w (snd (disconnect env a (snd (connect env a w))))) = true ->
  connected (self w) = false ->
  closed (news w (snd (disconnect env a (snd (connect env a w))))) =
    opened (news w (snd (disconnect env a (snd (connect env a w)))))
  /\ List.length
       (closed (news w (snd (disconnect env a (snd (connect env a w))))))
     <= 1
  /\ connected (self (snd (disconnect env a (snd (connect env a w))))) = false.
Proof.
  intros _ Hoff.
  destruct (connect_run env a w)
    as (r & w1 & e1 & Hrun1 & _ & _ & _ & _ & Hone & Hok & Hko).
  destruct (disconnect_run env a w1)
    as (w2 & e2 & Hrun2 & _ & Ho2 & _ & _ & _ & _ & Hd).
  destruct Hrun1 as [Hc1 Ht1]. destruct Hrun2 as [Hc2 Ht2].
  rewrite Hc1. cbn [snd]. rewrite Hc2. cbn [snd].
  rewrite (news_logged w w2 (e1 ++ e2)%list)
    by (now rewrite Ht2, Ht1, List.app_assoc).
  rewrite closed_app, opened_app, Ho2, List.app_nil_r.
  destruct r.
  - destruct (Hok eq_refl) as (Hcon & Hfd & Hop & Hcl & _).
    rewrite Hcon, (proj2 (Z.leb_le _ _) Hfd) in Hd. cbn [andb] in Hd.
    destruct Hd as (Hcl2 & _ & Hcon2).
    rewrite Hcl, Hcl2, Hop. cbn. auto.
  - destruct (Hko eq_refl) as (Hcon & Hcl & _).
    rewrite Hcon, Hoff in Hd. cbn [andb] in Hd. destruct Hd as (-> & ->).
    rewrite List.app_nil_r, Hcl. repeat split; auto. congruence.
Qed.

(** X3, witness: a connection that is accepted and then given up. *)
Lemma connect_then_disconnect_witness :
  closed (news fresh (snd (disconnect welcoming CONSUMER
                             (snd (connect welcoming CONSUMER fresh))))) =
    opened (news fresh (snd (disconnect welcoming CONSUMER
                               (snd (connect welcoming CONSUMER fresh)))))
  /\ List.length
       (closed (news fresh (snd (disconnect welcoming CONSUMER
                                   (snd (connect welcoming CONSUMER fresh))))))
     <= 1
  /\ connected (self (snd (disconnect welcoming CONSUMER
                             (snd (connect welcoming CONSUMER fresh))))) = false.
Proof.
  apply (connect_then_disconnect welcoming CONSUMER fresh); reflexivity.
Defined.

(** ** Frames and message ids as texts *)

Lemma append_cancel (p x y : string) : p ++ x = p ++ y -> x = y.
Proof.
  induction p as [|c p IH]; [auto |]. cbn [append]. intros [= H]. auto.
Qed.

(** Two texts cut at their first line break. *)
Lemma split_line (x y rest rest' : string) :
  has_char "010"%char x = false -> has_char "010"%char y = false ->
  x ++ LF ++ rest = y ++ LF ++ rest' -> x = y /\ rest = rest'.
Proof.
  revert y. induction x as [|c x IH]; intros [|d y] Hx Hy H;
    cbn [append LF has_char] in *.
  - injection H as H. auto.
  - injection H as Hc H. subst d.
    now rewrite Ascii.eqb_refl in Hy.
  - injection H as Hc H. subst c.
    now rewrite Ascii.eqb_refl in Hx.
  - injection H as Hc H. subst d.
    apply orb_false_elim in Hx as [_ Hx]. apply orb_false_elim in Hy as [_ Hy].
    destruct (IH y Hx Hy H) as [-> ->]. auto.
Qed.

Lemma split_same_length (x y rest rest' : string) :
  String.length x = String.length y ->
  x ++ rest = y ++ rest' -> x = y /\ rest = rest'.
Proof.
  revert y. induction x as [|c x IH]; intros [|d y] Hlen H;
    cbn [append String.length] in *; try discriminate; auto.
  injection H as -> H. injection Hlen as Hlen.
  destruct (IH y Hlen H) as [-> ->]. auto.
Qed.

Lemma digits_no_LF (d : Decimal.uint) :
  has_char "010"%char (NilEmpty.string_of_uint d) = false.
Proof. induction d; cbn; auto. Qed.

Lemma to_string_no_LF (n : nat) : has_char "010"%char (to_string n) = false.
Proof.
  unfold to_string, NilZero.string_of_uint.
  destruct (Nat.to_uint n); try reflexivity; apply digits_no_LF.
Qed.

(** X5.  A SEND frame has one reading.  Two calls of [sendMessage] write
    the same bytes only for the same destination and the same message,
    as long as the destinations have no line break; the message may hold
    any bytes at all. *)
Theorem sendFrame_injective (destination destination' message message'
                             : string) :
  has_char "010"%char destination = false ->
  has_char "010"%char destination' = false ->
  sendFrame destination message = sendFrame destination' message' ->
  destination = destination' /\ message = message'.
Proof.
  intros Hd Hd' H. unfold sendFrame in H.
  rewrite !append_assoc in H.
  apply (append_cancel ("SEND" ++ LF)) in H.
  apply (append_cancel "destination:") in H.
  apply split_line in H as [-> H]; [|assumption..].
  split; [reflexivity |].
  apply (append_cancel ("content-type:text/plain" ++ LF)) in H.
  apply (append_cancel "content-length:") in H.
  apply split_line in H as [_ H]; [|apply to_string_no_LF..].
  apply (append_cancel LF) in H.
  cbn [c_str] in H. rewrite Ascii.eqb_refl, !append_empty_r in H. exact H.
Qed.

(** X5, witness: the frame for [hello]. *)
Lemma sendFrame_injective_witness :
  "/queue/x" = "/queue/x" /\ "hello" = "hello".
Proof.
  apply (sendFrame_injective "/queue/x" "/queue/x" "hello" "hello");
    reflexivity.
Defined.

Lemma show_int_injective (x y : Z) : show_int x = show_int y -> x = y.
Proof.
  unfold show_int. intros H.
  assert (Hnil : forall z, Z.to_int z <> Decimal.Pos Decimal.Nil
                           /\ Z.to_int z <> Decimal.Neg Decimal.Nil).
  { intros [|p|p]; cbn; split; try discriminate;
      intros [= E]; now apply Unsigned.to_uint_nonnil in E. }
  apply DecimalZ.to_int_inj.
  assert (E : Some (Z.to_int x) = Some (Z.to_int y)).
  { rewrite <- (NilZero.isi (Z.to_int x)) by apply Hnil.
    rewrite <- (NilZero.isi (Z.to_int y)) by apply Hnil.
    now rewrite H. }
  now injection E.
Qed.

(** X6.  Message ids tell messages apart.  Two ids made by
    [generateMessageId] are equal only if they were made at the same
    printed time and for the same index, the printed times being of one
    length as the format ["%Y%m%d_%H%M%S"] gives them. *)
Theorem generateMessageId_injective (now now' : list event -> string)
        (index index' : Z) (w w' : World) :
  String.length (now (trace w)) = String.length (now' (trace w')) ->
  fst (generateMessageId now index w) = fst (generateMessageId now' index' w')
  ->
  now (trace w) = now' (trace w') /\ index = index'.
Proof.
  intros Hlen H. cbn [generateMessageId fst] in H.
  apply (append_cancel "MSG_") in H.
  apply split_same_length in H as [Hs H]; [|exact Hlen].
  apply (append_cancel "_INDEX_") in H.
  split; [exact Hs | now apply show_int_injective].
Qed.

(** X6, witness: the first message at noon. *)
Lemma generateMessageId_injective_witness :
  noon (trace fresh) = noon (trace online) /\ 1%Z = 1%Z.
Proof.
  apply (generateMessageId_injective noon noon 1 1 fresh online);
    reflexivity.
Defined.

(** X10.  The frames of the consumer are terminated.  The CONNECT, SUBSCRIBE
    and DISCONNECT frames that the consumer writes end in one NUL byte,
    and that byte is the only NUL of the frame when the host, the
    destination and the subscription id have none. *)
Theorem consumer_frames_terminated (h destination subscription_id : string) :
  has_char NUL h = false ->
  has_char NUL destination = false ->
  has_char NUL subscription_id = false ->
  Forall (fun frame =>
            exists text, frame = text ++ String NUL ""
                         /\ has_char NUL text = false)
         [connectFrame CONSUMER h;
          subscribeFrame destination subscription_id;
          disconnectFrame CONSUMER].
Proof.
  intros Hh Hd Hi. repeat constructor.
  - exists ("CONNECT" ++ LF ++ "accept-version:1.0,1.1,1.2" ++ LF
            ++ ("host:" ++ h ++ LF) ++ "heart-beat:0,0" ++ LF ++ LF).
    split.
    + unfold connectFrame. rewrite !append_assoc. reflexivity.
    + rewrite !has_char_append, Hh. reflexivity.
  - exists ("SUBSCRIBE" ++ LF ++ ("destination:" ++ destination ++ LF)
            ++ ("id:" ++ subscription_id ++ LF) ++ "ack:auto" ++ LF ++ LF).
    split.
    + unfold subscribeFrame. rewrite !append_assoc. reflexivity.
    + rewrite !has_char_append, Hd, Hi. reflexivity.
  - exists ("DISCONNECT" ++ LF ++ LF). split; reflexivity.
Qed.

(** X10, witness: the frames of the consumer's [main]. *)
Lemma consumer_frames_terminated_witness :
  Forall (fun frame =>
            exists text, frame = text ++ String NUL ""
                         /\ has_char NUL text = false)
         [connectFrame CONSUMER broker_host;
          subscribeFrame queue_destination "sub-1";
          disconnectFrame CONSUMER].
Proof.
  apply (consumer_frames_terminated broker_host queue_destination "sub-1");
    reflexivity.
Defined.

(** ** The payload as a part of the text read *)

Lemma substring_cut (s : string) (k : nat) :
  s = substring 0 k s ++ substring k (String.length s - k) s.
Proof.
  revert k. induction s as [|c s IH]; intros [|k]; cbn; try reflexivity.
  - now rewrite substring_all.
  - now rewrite <- IH.
Qed.

Lemma length_substring (s : string) (k n : nat) :
  String.length (substring k n s) <= String.length s - k.
Proof.
  revert k n. induction s as [|c s IH]; intros [|k] [|n]; cbn; try lia.
  - specialize (IH 0 n). lia.
  - apply IH.
  - apply IH.
Qed.

Lemma length_substring_0 (s : string) (k : nat) :
  k <= String.length s -> String.length (substring 0 k s) = k.
Proof.
  revert k. induction s as [|c s IH]; intros [|k] H; cbn in *; try lia.
  rewrite IH; lia.
Qed.

Lemma substring_more (s : string) (k n m : nat) :
  k + n <= String.length s ->
  substring k (n + m) s = substring k n s ++ substring (k + n) m s.
Proof.
  revert k n. induction s as [|c s IH]; intros k n H; cbn in H.
  - assert (k = 0) by lia. assert (n = 0) by lia. subst. reflexivity.
  - destruct k as [|k].
    + destruct n as [|n]; [reflexivity |].
      cbn [substring Nat.add append]. f_equal.
      apply (IH 0 n). lia.
    + cbn [substring Nat.add]. apply IH. lia.
Qed.

Lemma parse_response_tail (response : string) :
  has_char NUL response = false ->
  parse_response response = ""
  \/ exists before,
       response = before ++ LF ++ LF ++ parse_response response
       /\ find response (LF ++ LF) 0 = Some (String.length before)
       /\ isSome (find response "MESSAGE" 0) = true.
Proof.
  intros Hnul. unfold parse_response.
  destruct (isSome (find response "MESSAGE" 0)); [|now left].
  destruct (find response (LF ++ LF) 0) as [k|] eqn:Hk; [|now left].
  rewrite find_char_absent by exact Hnul. right.
  unfold find in Hk. apply index_correct1 in Hk.
  change (String.length (LF ++ LF)) with 2 in Hk.
  pose proof (length_substring response k 2) as Hlen.
  rewrite Hk in Hlen. change (String.length (LF ++ LF)) with 2 in Hlen.
  exists (substring 0 k response). unfold substr.
  rewrite length_substring_0 by lia.
  split; [|split; reflexivity].
  rewrite (substring_cut response k) at 1. f_equal.
  replace (String.length response - k)
    with (2 + (String.length response - (k + 2))) by lia.
  rewrite substring_more by lia. rewrite Hk, append_assoc. reflexivity.
Qed.

(** X11.  What a payload is.  Whatever is read, the result of
    [receiveMessage] has no NUL byte, and when it is not empty it is the
    whole rest of the text read (the bytes before the first NUL of the
    read) after the first empty line of that text, which has [MESSAGE]
    somewhere in it.  So a payload always runs to the end of the text,
    and what precedes the first empty line never gets into it. *)
Theorem payload_is_tail (env : Env) (w : World) :
  has_char NUL (fst (receiveMessage env w)) = false
  /\ (fst (receiveMessage env w) = ""
      \/ exists before,
           c_str (snd (recv_answer (read_of env w) 4095)) =
             before ++ LF ++ LF ++ fst (receiveMessage env w)
           /\ find (c_str (snd (recv_answer (read_of env w) 4095)))
                   (LF ++ LF) 0 = Some (String.length before)
           /\ isSome (find (c_str (snd (recv_answer (read_of env w) 4095)))
                           "MESSAGE" 0) = true
           /\ connected (self w) = true).
Proof.
  destruct (connected (self w)) eqn:Hc.
  2:{ rewrite receiveMessage_offline by exact Hc. split; [reflexivity |].
      now left. }
  rewrite receiveMessage_online by exact Hc. cbv zeta. cbn [fst].
  set (text := c_str (snd (recv_answer (read_of env w) 4095))).
  destruct (0 <? fst (recv_answer (read_of env w) 4095))%Z;
    [|split; [reflexivity | now left]].
  destruct (parse_response_tail text (c_str_no_NUL _))
    as [-> | (before & Heq & Hfind & Hm)].
  - split; [reflexivity | now left].
  - split.
    + pose proof (c_str_no_NUL (snd (recv_answer (read_of env w) 4095)))
        as Hnul.
      fold text in Hnul. rewrite Heq in Hnul.
      rewrite !has_char_append in Hnul.
      apply orb_false_elim in Hnul as [_ Hnul].
      apply orb_false_elim in Hnul as [_ Hnul].
      apply orb_false_elim in Hnul as [_ Hnul]. exact Hnul.
    + right. exists before. auto.
Qed.
